(** * mskexporter: the Tk shell of the Manuskript exporter

    A shallow embedding of [mskexporter/mskexporter.pyw].  The class
    [MainTk] becomes a record of its attributes and of the widget options
    the methods configure; every method becomes a state transformer.  The
    collaborators the shell calls out to (the file system, the file
    dialog, [mskmd] and [pypandoc]) are an interface over an abstract
    world, threaded through the calls in the order the code makes them.

    Python [str] values are [string]s whose characters are read as code
    points below 256. *)

From Stdlib Require Import ZArith List Lia Bool.
From Stdlib Require Import Strings.String Strings.Ascii.
From stdpp Require Import base gmap strings.

Local Open Scope string_scope.
Local Open Scope Z_scope.

(** ** Python [str] operations used by the shell *)

Module PyStr.

Fixpoint take (n : nat) (s : string) : string :=
  match n, s with
  | S n', String c t => String c (take n' t)
  | _, _ => EmptyString
  end.

Fixpoint drop (n : nat) (s : string) : string :=
  match n, s with
  | S n', String _ t => drop n' t
  | _, _ => s
  end.

Definition len (s : string) : Z := Z.of_nat (String.length s).

(** A slice bound as Python normalises it: negative bounds count from
    the end, and every bound is clipped to [0 .. len s]. *)
Definition bound (i : Z) (s : string) : nat :=
  Z.to_nat (if i <? 0 then Z.max 0 (i + len s) else Z.min i (len s)).

(** [s[:i]] *)
Definition slice_to (i : Z) (s : string) : string := take (bound i s) s.

(** [s[i:]] *)
Definition slice_from (i : Z) (s : string) : string := drop (bound i s) s.

(** [s[i:j]] *)
Definition slice (i j : Z) (s : string) : string :=
  take (bound j s - bound i s) (drop (bound i s) s).

(** [s.rfind(c)] for a one-character [c]: the highest index of [c], or -1. *)
Fixpoint rfind (c : ascii) (s : string) : Z :=
  match s with
  | EmptyString => -1
  | String x t =>
      let r := rfind c t in
      if 0 <=? r then r + 1 else if Ascii.eqb x c then 0 else -1
  end.

(** [s.startswith(p)] *)
Fixpoint startswith (p s : string) : bool :=
  match p, s with
  | EmptyString, _ => true
  | String a p', String b s' => Ascii.eqb a b && startswith p' s'
  | String _ _, EmptyString => false
  end.

(** [s.endswith(c)] for a one-character [c]. *)
Fixpoint endswith (c : ascii) (s : string) : bool :=
  match s with
  | EmptyString => false
  | String x EmptyString => Ascii.eqb x c
  | String _ t => endswith c t
  end.

(** [c * n] *)
Fixpoint repeat (c : ascii) (n : nat) : string :=
  match n with
  | O => EmptyString
  | S n' => String c (repeat c n')
  end.

(** [s.rstrip(c)] for a one-character [c]. *)
Fixpoint rstrip_char (c : ascii) (s : string) : string :=
  match s with
  | EmptyString => EmptyString
  | String x t =>
      match rstrip_char c t with
      | EmptyString => if Ascii.eqb x c then EmptyString else String x EmptyString
      | t' => String x t'
      end
  end.

(** [str.isspace] on one code point below 256. *)
Definition isspace (c : ascii) : bool :=
  let n := N_of_ascii c in
  ((9 <=? n) && (n <=? 13) || (28 <=? n) && (n <=? 32)
   || (n =? 133) || (n =? 160))%N.

Fixpoint lstrip (s : string) : string :=
  match s with
  | String x t => if isspace x then lstrip t else s
  | EmptyString => EmptyString
  end.

Fixpoint rstrip (s : string) : string :=
  match s with
  | EmptyString => EmptyString
  | String x t =>
      match rstrip t with
      | EmptyString => if isspace x then EmptyString else String x EmptyString
      | t' => String x t'
      end
  end.

(** [s.strip()] *)
Definition strip (s : string) : string := rstrip (lstrip s).

(** [s.split(c, maxsplit=1)]: cut at the first [c], if there is one. *)
Fixpoint split_once_aux (c : ascii) (s : string) : option (string * string) :=
  match s with
  | EmptyString => None
  | String x t =>
      if Ascii.eqb x c then Some (EmptyString, t)
      else match split_once_aux c t with
           | Some (a, b) => Some (String x a, b)
           | None => None
           end
  end.

Definition split_max1 (c : ascii) (s : string) : list string :=
  match split_once_aux c s with
  | Some (a, b) => [a; b]
  | None => [s]
  end.

(** [s.split(c)] *)
Fixpoint split (c : ascii) (s : string) : list string :=
  match s with
  | EmptyString => [EmptyString]
  | String x t =>
      if Ascii.eqb x c then EmptyString :: split c t
      else match split c t with
           | w :: ws => String x w :: ws
           | [] => [String x EmptyString]
           end
  end.

(** [sep.join(parts)] *)
Fixpoint join (sep : string) (parts : list string) : string :=
  match parts with
  | [] => EmptyString
  | [w] => w
  | w :: ws => w +:+ sep +:+ join sep ws
  end.

(** Truth value of a [str]: the empty string is false. *)
Definition truthy (s : string) : bool := negb (String.eqb s EmptyString).

End PyStr.

(** ** [os.path], as [posixpath] defines it *)

Module os_path.
Import PyStr.

Definition sep : ascii := "/"%char.
Definition extsep : ascii := "."%char.

Definition all_sep (head : string) : bool :=
  String.eqb head (repeat sep (String.length head)).

(** [posixpath.split] *)
Definition split (p : string) : string * string :=
  let i := rfind sep p + 1 in
  let head := slice_to i p in
  let tail := slice_from i p in
  let head :=
    if truthy head && negb (all_sep head) then rstrip_char sep head else head in
  (head, tail).

(** [posixpath.dirname] *)
Definition dirname (p : string) : string :=
  let i := rfind sep p + 1 in
  let head := slice_to i p in
  if truthy head && negb (all_sep head) then rstrip_char sep head else head.

(** The loop of [genericpath._splitext] that skips leading dots: [n] is
    [dotIndex - filenameIndex], the number of iterations left.  [true]
    when a character other than a dot comes before the last dot. *)
Fixpoint name_before_dot (n : nat) (p : string) (filenameIndex : Z) : bool :=
  match n with
  | O => false
  | S n' =>
      if negb (String.eqb (slice filenameIndex (filenameIndex + 1) p)
                          (String extsep EmptyString))
      then true
      else name_before_dot n' p (filenameIndex + 1)
  end.

(** [posixpath.splitext] *)
Definition splitext (p : string) : string * string :=
  let sepIndex := rfind sep p in
  let dotIndex := rfind extsep p in
  if (sepIndex <? dotIndex)
     && name_before_dot (Z.to_nat (dotIndex - (sepIndex + 1))) p (sepIndex + 1)
  then (slice_to dotIndex p, slice_from dotIndex p)
  else (p, EmptyString).

(** [posixpath.join] of two components *)
Definition join (a b : string) : string :=
  if startswith (String sep EmptyString) b then b
  else if negb (truthy a) || endswith sep a then a +:+ b
  else a +:+ String sep EmptyString +:+ b.

(** The component loop of [posixpath.normpath]; [new_comps] is kept
    reversed, its head being the last component appended. *)
Fixpoint norm_comps (initial_slashes : nat) (comps new_comps : list string)
  : list string :=
  match comps with
  | [] => rev new_comps
  | comp :: rest =>
      if String.eqb comp "" || String.eqb comp "." then
        norm_comps initial_slashes rest new_comps
      else if negb (String.eqb comp "..")
              || (Nat.eqb initial_slashes 0
                  && match new_comps with [] => true | _ => false end)
              || match new_comps with
                 | last :: _ => String.eqb last ".."
                 | [] => false
                 end
      then norm_comps initial_slashes rest (comp :: new_comps)
      else match new_comps with
           | _ :: popped => norm_comps initial_slashes rest popped
           | [] => norm_comps initial_slashes rest new_comps
           end
  end.

(** [posixpath.normpath] *)
Definition normpath (path : string) : string :=
  if String.eqb path "" then "."
  else
    let initial_slashes :=
      if startswith "/" path then
        if startswith "//" path && negb (startswith "///" path)
        then 2%nat else 1%nat
      else 0%nat in
    let comps := norm_comps initial_slashes (PyStr.split sep path) [] in
    let path := repeat sep initial_slashes +:+ PyStr.join "/" comps in
    if truthy path then path else ".".

End os_path.

(** ** Predicates on paths *)

(** [c in s] *)
Fixpoint occurs (c : ascii) (s : string) : bool :=
  match s with
  | EmptyString => false
  | String x t => Ascii.eqb x c || occurs c t
  end.

(** Two [c] in a row somewhere in [s]. *)
Fixpoint doubled (c : ascii) (s : string) : bool :=
  match s with
  | String x (String y _ as t) => Ascii.eqb x c && Ascii.eqb y c || doubled c t
  | _ => false
  end.

(** ** The application object *)

(** The [state] option of a menu entry. *)
Inductive entry_state := normal | disabled.

(** The options of a [tk.Label] that the shell configures. *)
Record Label := { bg : string; fg : string; text : string }.

(** An instance of [MainTk]: its attributes, then the options of the
    widgets it owns that its methods read or configure.  [prjName] and
    [_pathText] do not exist until a method assigns them; [None] stands for
    an absent attribute as well as for Python's [None]. *)
Record MainTk := {
  usePandoc : bool;
  infoHowText : string;
  _fileTypes : list (string * string);
  title : string;
  _statusText : string;
  kwargs : gmap string string;
  prjDir : option string;
  prjName : option string;
  _pathText : option string;
  outputType : Z;                  (* self.outputType.get() *)
  root_title : string;             (* self.root.title() *)
  root_background : string;        (* self.root.cget('background') *)
  fileMenu_Close : entry_state;    (* state of 'Close' in self.fileMenu *)
  mainMenu_Convert : entry_state;  (* state of 'Convert' in self.mainMenu *)
  statusBar : Label;
  pathBar : Label
}.

Definition set_infoHowText (v : string) (self : MainTk) : MainTk :=
  {| usePandoc := usePandoc self; infoHowText := v;
     _fileTypes := _fileTypes self; title := title self;
     _statusText := _statusText self; kwargs := kwargs self;
     prjDir := prjDir self; prjName := prjName self; _pathText := _pathText self;
     outputType := outputType self; root_title := root_title self;
     root_background := root_background self;
     fileMenu_Close := fileMenu_Close self;
     mainMenu_Convert := mainMenu_Convert self; statusBar := statusBar self;
     pathBar := pathBar self |}.

Definition set_statusText (v : string) (self : MainTk) : MainTk :=
  {| usePandoc := usePandoc self; infoHowText := infoHowText self;
     _fileTypes := _fileTypes self; title := title self; _statusText := v;
     kwargs := kwargs self; prjDir := prjDir self; prjName := prjName self;
     _pathText := _pathText self; outputType := outputType self;
     root_title := root_title self; root_background := root_background self;
     fileMenu_Close := fileMenu_Close self;
     mainMenu_Convert := mainMenu_Convert self; statusBar := statusBar self;
     pathBar := pathBar self |}.

Definition set_kwargs (v : gmap string string) (self : MainTk) : MainTk :=
  {| usePandoc := usePandoc self; infoHowText := infoHowText self;
     _fileTypes := _fileTypes self; title := title self;
     _statusText := _statusText self; kwargs := v; prjDir := prjDir self;
     prjName := prjName self; _pathText := _pathText self;
     outputType := outputType self; root_title := root_title self;
     root_background := root_background self;
     fileMenu_Close := fileMenu_Close self;
     mainMenu_Convert := mainMenu_Convert self; statusBar := statusBar self;
     pathBar := pathBar self |}.

Definition set_prjDir (v : option string) (self : MainTk) : MainTk :=
  {| usePandoc := usePandoc self; infoHowText := infoHowText self;
     _fileTypes := _fileTypes self; title := title self;
     _statusText := _statusText self; kwargs := kwargs self; prjDir := v;
     prjName := prjName self; _pathText := _pathText self;
     outputType := outputType self; root_title := root_title self;
     root_background := root_background self;
     fileMenu_Close := fileMenu_Close self;
     mainMenu_Convert := mainMenu_Convert self; statusBar := statusBar self;
     pathBar := pathBar self |}.

Definition set_prjName (v : option string) (self : MainTk) : MainTk :=
  {| usePandoc := usePandoc self; infoHowText := infoHowText self;
     _fileTypes := _fileTypes self; title := title self;
     _statusText := _statusText self; kwargs := kwargs self;
     prjDir := prjDir self; prjName := v; _pathText := _pathText self;
     outputType := outputType self; root_title := root_title self;
     root_background := root_background self;
     fileMenu_Close := fileMenu_Close self;
     mainMenu_Convert := mainMenu_Convert self; statusBar := statusBar self;
     pathBar := pathBar self |}.

Definition set_pathText (v : option string) (self : MainTk) : MainTk :=
  {| usePandoc := usePandoc self; infoHowText := infoHowText self;
     _fileTypes := _fileTypes self; title := title self;
     _statusText := _statusText self; kwargs := kwargs self;
     prjDir := prjDir self; prjName := prjName self; _pathText := v;
     outputType := outputType self; root_title := root_title self;
     root_background := root_background self;
     fileMenu_Close := fileMenu_Close self;
     mainMenu_Convert := mainMenu_Convert self; statusBar := statusBar self;
     pathBar := pathBar self |}.

Definition set_outputType (v : Z) (self : MainTk) : MainTk :=
  {| usePandoc := usePandoc self; infoHowText := infoHowText self;
     _fileTypes := _fileTypes self; title := title self;
     _statusText := _statusText self; kwargs := kwargs self;
     prjDir := prjDir self; prjName := prjName self; _pathText := _pathText self;
     outputType := v; root_title := root_title self;
     root_background := root_background self;
     fileMenu_Close := fileMenu_Close self;
     mainMenu_Convert := mainMenu_Convert self; statusBar := statusBar self;
     pathBar := pathBar self |}.

Definition set_root_title (v : string) (self : MainTk) : MainTk :=
  {| usePandoc := usePandoc self; infoHowText := infoHowText self;
     _fileTypes := _fileTypes self; title := title self;
     _statusText := _statusText self; kwargs := kwargs self;
     prjDir := prjDir self; prjName := prjName self; _pathText := _pathText self;
     outputType := outputType self; root_title := v;
     root_background := root_background self;
     fileMenu_Close := fileMenu_Close self;
     mainMenu_Convert := mainMenu_Convert self; statusBar := statusBar self;
     pathBar := pathBar self |}.

Definition set_fileMenu_Close (v : entry_state) (self : MainTk) : MainTk :=
  {| usePandoc := usePandoc self; infoHowText := infoHowText self;
     _fileTypes := _fileTypes self; title := title self;
     _statusText := _statusText self; kwargs := kwargs self;
     prjDir := prjDir self; prjName := prjName self; _pathText := _pathText self;
     outputType := outputType self; root_title := root_title self;
     root_background := root_background self; fileMenu_Close := v;
     mainMenu_Convert := mainMenu_Convert self; statusBar := statusBar self;
     pathBar := pathBar self |}.

Definition set_mainMenu_Convert (v : entry_state) (self : MainTk) : MainTk :=
  {| usePandoc := usePandoc self; infoHowText := infoHowText self;
     _fileTypes := _fileTypes self; title := title self;
     _statusText := _statusText self; kwargs := kwargs self;
     prjDir := prjDir self; prjName := prjName self; _pathText := _pathText self;
     outputType := outputType self; root_title := root_title self;
     root_background := root_background self;
     fileMenu_Close := fileMenu_Close self; mainMenu_Convert := v;
     statusBar := statusBar self; pathBar := pathBar self |}.

Definition set_statusBar (v : Label) (self : MainTk) : MainTk :=
  {| usePandoc := usePandoc self; infoHowText := infoHowText self;
     _fileTypes := _fileTypes self; title := title self;
     _statusText := _statusText self; kwargs := kwargs self;
     prjDir := prjDir self; prjName := prjName self; _pathText := _pathText self;
     outputType := outputType self; root_title := root_title self;
     root_background := root_background self;
     fileMenu_Close := fileMenu_Close self;
     mainMenu_Convert := mainMenu_Convert self; statusBar := v;
     pathBar := pathBar self |}.

Definition set_pathBar (v : Label) (self : MainTk) : MainTk :=
  {| usePandoc := usePandoc self; infoHowText := infoHowText self;
     _fileTypes := _fileTypes self; title := title self;
     _statusText := _statusText self; kwargs := kwargs self;
     prjDir := prjDir self; prjName := prjName self; _pathText := _pathText self;
     outputType := outputType self; root_title := root_title self;
     root_background := root_background self;
     fileMenu_Close := fileMenu_Close self;
     mainMenu_Convert := mainMenu_Convert self; statusBar := statusBar self;
     pathBar := v |}.

Definition OUTPUT_TYPES : list string := ["md"; "odt"; "docx"; "html"].

(** What Tk chooses when a widget is created without colours. *)
Record TkTheme := {
  theme_background : string;
  theme_label_bg : string;
  theme_label_fg : string
}.

(** ** Methods that only touch the application object *)

(** [MainTk.show_path] *)
Definition show_path (message : string) (self : MainTk) : MainTk :=
  let self := set_pathText (Some message) self in
  set_pathBar {| bg := bg (pathBar self); fg := fg (pathBar self);
                 text := message |} self.

(** [MainTk.show_status] *)
Definition show_status (message : string) (self : MainTk) : MainTk :=
  let self := set_statusText message self in
  let self := set_statusBar {| bg := root_background self;
                               fg := fg (statusBar self);
                               text := text (statusBar self) |} self in
  let self := set_statusBar {| bg := bg (statusBar self);
                               fg := "black";
                               text := text (statusBar self) |} self in
  set_statusBar {| bg := bg (statusBar self); fg := fg (statusBar self);
                   text := message |} self.

(** [MainTk.restore_status] *)
Definition restore_status (self : MainTk) : MainTk :=
  show_status (_statusText self) self.

(** [MainTk.set_info_how].  The marker branch indexes the result of
    [split]; after [startswith] the index 1 exists, see
    [split_max1_marker]. *)
Definition set_info_how (message : string) (self : MainTk) : MainTk :=
  let self :=
    if PyStr.startswith "!" message then
      let self := set_statusBar {| bg := "red"; fg := fg (statusBar self);
                                   text := text (statusBar self) |} self in
      let self := set_statusBar {| bg := bg (statusBar self); fg := "white";
                                   text := text (statusBar self) |} self in
      set_infoHowText
        (PyStr.strip (nth 1 (PyStr.split_max1 "!" message) "")) self
    else
      let self := set_statusBar {| bg := "green"; fg := fg (statusBar self);
                                   text := text (statusBar self) |} self in
      let self := set_statusBar {| bg := bg (statusBar self); fg := "white";
                                   text := text (statusBar self) |} self in
      set_infoHowText message self in
  set_statusBar {| bg := bg (statusBar self); fg := fg (statusBar self);
                   text := infoHowText self |} self.

(** [MainTk.disable_menu] *)
Definition disable_menu (self : MainTk) : MainTk :=
  set_mainMenu_Convert disabled (set_fileMenu_Close disabled self).

(** [MainTk.enable_menu] *)
Definition enable_menu (self : MainTk) : MainTk :=
  set_mainMenu_Convert normal (set_fileMenu_Close normal self).

(** [MainTk.close_project] *)
Definition close_project (self : MainTk) : MainTk :=
  let self := set_prjDir None self in
  let self := set_root_title (title self) self in
  let self := show_status "" self in
  let self := show_path "" self in
  disable_menu self.

(** [MainTk.__init__], with [_build_main_menu]: the widgets are created
    with the theme's colours and empty texts, the radio buttons start at
    index 0, and the menu is built with 'Close' and 'Convert' disabled. *)
Definition MainTk_init (theme : TkTheme) (title : string)
    (kwargs : gmap string string) : MainTk :=
  disable_menu
    {| usePandoc := true;
       infoHowText := "";
       _fileTypes := [("Manuskript project", ".msk")];
       title := title;
       _statusText := "";
       kwargs := kwargs;
       prjDir := None;
       prjName := None;
       _pathText := None;
       outputType := 0;
       root_title := title;
       root_background := theme_background theme;
       fileMenu_Close := disabled;
       mainMenu_Convert := normal;
       statusBar := {| bg := theme_label_bg theme; fg := theme_label_fg theme;
                       text := "" |};
       pathBar := {| bg := theme_label_bg theme; fg := theme_label_fg theme;
                     text := "" |} |}.


(** ** The collaborators and the world they act on *)

(** A raised exception; [str_of] is Python's [str(ex)]. *)
Inductive exn :=
| Exception (msg : string)
| IndexError (msg : string).

Definition str_of (ex : exn) : string :=
  match ex with
  | Exception msg => msg
  | IndexError msg => msg
  end.

(** What a call returns to its caller. *)
Inductive result (A : Type) :=
| Ret (a : A)
| Raise (ex : exn).
Arguments Ret {A} a.
Arguments Raise {A} ex.

(** One call of [pypandoc.convert_file(source, to, outputfile=...)]; the
    [format] argument is the constant ['markdown-smart']. *)
Record conversion := {
  cv_source : string;
  cv_to : string;
  cv_outputfile : string
}.

(** Everything outside the shell.  The file system is only read; the
    dialog, the generator and the converter may change the world. *)
Class Collaborators (World : Type) := {
  os_path_isfile : string -> World -> bool;
  os_path_isdir : string -> World -> bool;
  (** [filedialog.askopenfilename(filetypes, defaultextension, initialdir)];
      the empty string when the dialog is dismissed *)
  askopenfilename :
    list (string * string) -> string -> string -> World -> string * World;
  mskmd_convert_outline : option string -> World -> result (list string) * World;
  mskmd_convert_world : option string -> World -> result (list string) * World;
  mskmd_convert_characters :
    option string -> World -> result (list string) * World;
  pypandoc_convert_file : conversion -> World -> result unit * World;
  winfo_geometry : World -> string
}.

Declare Scope shell_scope.
Delimit Scope shell_scope with shell.

Section Shell.
Context {World : Type} `{Collaborators World}.

(** The running system: the world and the application object, with two
    logs kept for the proofs, oldest entry first: the calls made to the
    converter, and the file lists handed to [call_pandoc]. *)
Record Sys := {
  world : World;
  app : MainTk;
  converted : list conversion;
  forwarded : list (list string)
}.

Definition with_world (w : World) (s : Sys) : Sys :=
  {| world := w; app := app s; converted := converted s;
     forwarded := forwarded s |}.

Definition with_app (a : MainTk) (s : Sys) : Sys :=
  {| world := world s; app := a; converted := converted s;
     forwarded := forwarded s |}.

(** Computations of the shell: they read and change the system and either
    return or raise. *)
Definition M (A : Type) : Type := Sys -> result A * Sys.

Definition ret {A} (a : A) : M A := fun s => (Ret a, s).

Definition raise {A} (ex : exn) : M A := fun s => (Raise ex, s).

Definition bind {A B} (m : M A) (k : A -> M B) : M B :=
  fun s =>
    match m s with
    | (Ret a, s') => k a s'
    | (Raise ex, s') => (Raise ex, s')
    end.

(** [try: m  except Exception as ex: h ex] *)
Definition try_except {A} (m : M A) (h : exn -> M A) : M A :=
  fun s =>
    match m s with
    | (Ret a, s') => (Ret a, s')
    | (Raise ex, s') => h ex s'
    end.

(** [try: body  except Exception as ex: handler ex  else: orelse] *)
Definition try_except_else {A B}
    (body : M A) (handler : exn -> M B) (orelse : A -> M B) : M B :=
  fun s =>
    match body s with
    | (Ret a, s') => orelse a s'
    | (Raise ex, s') => handler ex s'
    end.

Definition gets {A} (f : MainTk -> A) : M A := fun s => (Ret (f (app s)), s).

Definition update (f : MainTk -> MainTk) : M unit :=
  fun s => (Ret tt, with_app (f (app s)) s).

(** Ask the world a question that does not change it. *)
Definition query {A} (f : World -> A) : M A :=
  fun s => (Ret (f (world s)), s).

(** Call a collaborator that returns a value and may change the world. *)
Definition call {A} (f : World -> A * World) : M A :=
  fun s => let '(a, w) := f (world s) in (Ret a, with_world w s).

(** Call a collaborator that may raise. *)
Definition call_raising {A} (f : World -> result A * World) : M A :=
  fun s => let '(r, w) := f (world s) in (r, with_world w s).

(** [pypandoc.convert_file], noting the call. *)
Definition convert_file (c : conversion) : M unit :=
  fun s =>
    let '(r, w) := pypandoc_convert_file c (world s) in
    (r, {| world := w; app := app s; converted := converted s ++ [c];
           forwarded := forwarded s |}).

(** Note that [call_pandoc] was entered with [fileList]. *)
Definition enter_call_pandoc (fileList : list string) : M unit :=
  fun s =>
    (Ret tt, {| world := world s; app := app s; converted := converted s;
                forwarded := forwarded s ++ [fileList] |}).

(** [for x in xs: body x] *)
Fixpoint for_each {A} (xs : list A) (body : A -> M unit) : M unit :=
  match xs with
  | [] => ret tt
  | x :: rest => bind (body x) (fun _ => for_each rest body)
  end.

(** [xs[i]], with indices of 64 bits: an index that does not fit one is
    refused before the list is looked at; a negative index counts from the
    end. *)
Definition subscript (xs : list string) (i : Z) : M string :=
  if (i <? -9223372036854775808) || (9223372036854775807 <? i) then
    raise (IndexError "cannot fit 'int' into an index-sized integer")
  else
    let n := Z.of_nat (List.length xs) in
    let j := if i <? 0 then i + n else i in
    match (if j <? 0 then None else nth_error xs (Z.to_nat j)) with
    | Some x => ret x
    | None => raise (IndexError "list index out of range")
    end.

Notation "'do' x <- m ; k" := (bind m (fun x => k))
  (at level 10, x name, m at level 100, k at level 200) : shell_scope.
Notation "'exec' m ; k" := (bind m (fun _ => k))
  (at level 10, m at level 100, k at level 200) : shell_scope.
Local Open Scope shell_scope.

(** ** Methods that call out *)

(** [MainTk.call_pandoc] *)
Definition call_pandoc (fileList : list string) : M unit :=
  exec enter_call_pandoc fileList;
  do outputIndex <- gets outputType;
  if 0 <? outputIndex then
    do extension <- subscript OUTPUT_TYPES outputIndex;
    for_each fileList (fun mdFile =>
      let '(dir, file) := os_path.split mdFile in
      let '(name, _) := os_path.splitext file in
      try_except
        (convert_file
           {| cv_source := mdFile;
              cv_to := extension;
              cv_outputfile := os_path.join dir (name +:+ "." +:+ extension) |})
        (fun ex => update (set_info_how (str_of ex))))
  else ret tt.

(** The directory the file dialog starts in, as [select_project]
    computes it from the keyword arguments. *)
Definition initDir (kw : gmap string string) : string :=
  let initDir := os_path.dirname (default "" (kw !! "yw_last_open")) in
  if PyStr.truthy initDir then initDir else "./".

(** [MainTk.select_project] *)
Definition select_project (fileName : string) : M string :=
  do kw <- gets kwargs;
  let initDir := initDir kw in
  do isFile <- query (os_path_isfile fileName);
  do fileTypes <- gets _fileTypes;
  do fileName <-
    (if negb (PyStr.truthy fileName) || negb isFile
     then call (askopenfilename fileTypes ".yw7" initDir)
     else ret fileName);
  if negb (PyStr.truthy fileName) then ret "" else ret fileName.

(** The application object once [open_project] has restored the status
    and closed the project that was open, if one was. *)
Definition cleared (self : MainTk) : MainTk :=
  match prjDir self with
  | Some _ => close_project (restore_status self)
  | None => restore_status self
  end.

(** Whether [select_project] shows the file dialog, and what the dialog
    then answers. *)
Definition dialog_shown (fileName : string) (s : Sys) : bool :=
  negb (PyStr.truthy fileName) || negb (os_path_isfile fileName (world s)).

Definition dialog_answer (s : Sys) : string * World :=
  askopenfilename (_fileTypes (app s)) ".yw7" (initDir (kwargs (app s)))
                  (world s).

(** [MainTk.open_project] *)
Definition open_project (fileName : string) : M bool :=
  exec update restore_status;
  do fileName <- select_project fileName;
  if negb (PyStr.truthy fileName) then ret false
  else
    do open <- gets prjDir;
    exec (match open with
        | Some _ => update close_project
        | None => ret tt
        end);
    let '(dir, file) := os_path.split fileName in
    let '(name, extension) := os_path.splitext file in
    exec update (set_prjName (Some name));
    exec update (set_prjDir (Some (os_path.join dir name)));
    do isDir <- query (os_path_isdir (os_path.join dir name));
    if negb isDir then
      exec update (set_prjDir None);
      exec update (set_prjName None);
      ret false
    else
      exec update (show_path (os_path.normpath (os_path.join dir name)));
      exec update enable_menu;
      ret true.

(** [MainTk._open_project], the handler of the key binding *)
Definition _open_project : M unit :=
  exec open_project ""; ret tt.

(** [MainTk.convert_outline] *)
Definition convert_outline : M unit :=
  try_except_else
    (do dir <- gets prjDir;
     do fileList <- call_raising (mskmd_convert_outline dir);
     exec update (set_info_how "Outline documents written.");
     ret fileList)
    (fun ex => update (set_info_how ("!" +:+ str_of ex)))
    (fun fileList => call_pandoc fileList).

(** [MainTk.convert_world] *)
Definition convert_world : M unit :=
  try_except_else
    (do dir <- gets prjDir;
     do fileList <- call_raising (mskmd_convert_world dir);
     exec update (set_info_how "Story world document written.");
     ret fileList)
    (fun ex => update (set_info_how ("!" +:+ str_of ex)))
    (fun fileList => call_pandoc fileList).

(** [MainTk.convert_characters] *)
Definition convert_characters : M unit :=
  try_except_else
    (do dir <- gets prjDir;
     do fileList <- call_raising (mskmd_convert_characters dir);
     exec update (set_info_how "Character sheets document written.");
     ret fileList)
    (fun ex => update (set_info_how ("!" +:+ str_of ex)))
    (fun fileList => call_pandoc fileList).

(** [MainTk.on_quit]: the window geometry is kept for the caller.  The
    call [self.root.quit()] that follows ends the main loop; which events
    still arrive is not this method's business. *)
Definition on_quit : M unit :=
  do geometry <- query winfo_geometry;
  do kw <- gets kwargs;
  update (set_kwargs (<["root_geometry" := geometry]> kw)).

(** ** The session *)

(** What can happen between two turns of the Tk main loop: the bound
    keys, a click on the status bar, the menu commands, a radio button of
    the output selector, and the world moving on by itself. *)
Inductive event :=
| Key_Escape
| Key_Control_o
| Key_Control_q
| Click_statusBar
| File_Open
| File_Close
| File_Exit
| Convert_Outline
| Convert_World
| Convert_Characters
| Select_output (i : nat)
| Outside (w : World).

(** A menu command is offered only while its entry is not disabled, and
    there is one radio button for each output type. *)
Definition offered (e : event) (s : Sys) : Prop :=
  match e with
  | File_Close => fileMenu_Close (app s) = normal
  | Convert_Outline | Convert_World | Convert_Characters =>
      mainMenu_Convert (app s) = normal
  | Select_output i => (i < List.length OUTPUT_TYPES)%nat
  | _ => True
  end.

Definition handler (e : event) : M unit :=
  match e with
  | Key_Escape | Click_statusBar => update restore_status
  | Key_Control_o => _open_project
  | File_Open => exec open_project ""; ret tt
  | File_Close => update close_project
  | Key_Control_q | File_Exit => on_quit
  | Convert_Outline => convert_outline
  | Convert_World => convert_world
  | Convert_Characters => convert_characters
  | Select_output i => update (set_outputType (Z.of_nat i))
  | Outside w => fun s => (Ret tt, with_world w s)
  end.

(** The system after the handler of [e] has run; an exception that
    escapes a handler is reported by Tk and the main loop goes on. *)
Definition step (e : event) (s : Sys) : Sys := snd (handler e s).

Definition boot (theme : TkTheme) (title : string)
    (kwargs : gmap string string) (w : World) : Sys :=
  {| world := w; app := MainTk_init theme title kwargs; converted := [];
     forwarded := [] |}.

Inductive reachable : Sys -> Prop :=
| reach_boot theme title kwargs w : reachable (boot theme title kwargs w)
| reach_step e s : reachable s -> offered e s -> reachable (step e s).

Fixpoint run (es : list event) (s : Sys) : Sys :=
  match es with
  | [] => s
  | e :: rest => run rest (step e s)
  end.

(** The three categories of the Convert menu, with the generator and the
    handler of each. *)
Inductive category := outline | story_world | characters.

Definition generator_of (c : category)
  : option string -> World -> result (list string) * World :=
  match c with
  | outline => mskmd_convert_outline
  | story_world => mskmd_convert_world
  | characters => mskmd_convert_characters
  end.

Definition convert (c : category) : M unit :=
  match c with
  | outline => convert_outline
  | story_world => convert_world
  | characters => convert_characters
  end.

(** The directory [open_project] looks for beside the selected file. *)
Definition companion (fileName : string) : string :=
  let '(dir, file) := os_path.split fileName in
  let '(name, _) := os_path.splitext file in
  os_path.join dir name.

(** The output file [call_pandoc] names for one Markdown file. *)
Definition outputfile (extension mdFile : string) : string :=
  let '(dir, file) := os_path.split mdFile in
  let '(name, _) := os_path.splitext file in
  os_path.join dir (name +:+ "." +:+ extension).

(** The call [call_pandoc] makes for one Markdown file. *)
Definition conversion_of (extension mdFile : string) : conversion :=
  {| cv_source := mdFile; cv_to := extension;
     cv_outputfile := outputfile extension mdFile |}.

(** The menu follows the project: 'Close' and 'Convert' are enabled with
    a project open and disabled without. *)
Definition menu_follows_project (self : MainTk) : Prop :=
  match prjDir self with
  | Some _ => fileMenu_Close self = normal /\ mainMenu_Convert self = normal
  | None => fileMenu_Close self = disabled /\ mainMenu_Convert self = disabled
  end.

(** [after] differs from [before] in the shown how-text at most: the
    status bar and [infoHowText]. *)
Definition only_reported (before after : MainTk) : Prop :=
  set_statusBar (statusBar before) (set_infoHowText (infoHowText before) after)
  = before.

(** Worlds of a kind the converter does not lead out of. *)
Definition kept_by_converter (steady : World -> Prop) : Prop :=
  forall c w, steady w -> steady (snd (pypandoc_convert_file c w)).

(** The name [open_project] gives the project: the last component of the
    selected path without its extension. *)
Definition base_name (fileName : string) : string :=
  fst (os_path.splitext (snd (os_path.split fileName))).

(** The path bar follows the project: with a project open it shows the
    normalised project directory, which is the companion of some selected
    path whose base name is the project's name; with none it is empty. *)
Definition path_follows_project (self : MainTk) : Prop :=
  match prjDir self with
  | Some d =>
      text (pathBar self) = os_path.normpath d
      /\ _pathText self = Some (os_path.normpath d)
      /\ exists f, d = companion f /\ prjName self = Some (base_name f)
  | None => text (pathBar self) = ""
  end.

(** What every turn of the main loop keeps: nothing is ever stored as
    status text, the status bar is empty or shows the stored how-text, the
    selected output type is one of the radio buttons, and the path bar
    follows the project. *)
Definition session_invariant (self : MainTk) : Prop :=
  _statusText self = ""
  /\ (text (statusBar self) = "" \/ text (statusBar self) = infoHowText self)
  /\ 0 <= outputType self < Z.of_nat (List.length OUTPUT_TYPES)
  /\ path_follows_project self.

End Shell.

Arguments Sys World : clear implicits.
Arguments M World A : clear implicits.
Arguments event World : clear implicits.

(** The notations of the section, for the statements below. *)
Notation "'do' x <- m ; k" := (bind m (fun x => k))
  (at level 10, x name, m at level 100, k at level 200) : shell_scope.
Notation "'exec' m ; k" := (bind m (fun _ => k))
  (at level 10, m at level 100, k at level 200) : shell_scope.

(** ** A small world to run the shell in

    A file system given by its directories and files, a user whose answers
    to the file dialog are queued, a generator that either fails with a
    message or writes the listed files, and a converter that fails on the
    listed sources. *)

Module Desk.

Record desk := {
  dirs : list string;
  files : list string;
  answers : list string;
  generator : result (list string);
  unreadable : list string
}.

Definition mem (x : string) (xs : list string) : bool :=
  existsb (String.eqb x) xs.

Definition ask (w : desk) : string * desk :=
  match answers w with
  | [] => ("", w)
  | a :: rest =>
      (a, {| dirs := dirs w; files := files w; answers := rest;
             generator := generator w; unreadable := unreadable w |})
  end.

Definition pandoc (c : conversion) (w : desk) : result unit * desk :=
  if mem (cv_source c) (unreadable w)
  then (Raise (Exception ("cannot read " +:+ cv_source c)), w)
  else (Ret tt, w).

#[export] Instance collaborators : Collaborators desk := {
  os_path_isfile f w := mem f (files w);
  os_path_isdir d w := mem d (dirs w);
  askopenfilename _ _ _ w := ask w;
  mskmd_convert_outline _ w := (generator w, w);
  mskmd_convert_world _ w := (generator w, w);
  mskmd_convert_characters _ w := (generator w, w);
  pypandoc_convert_file := pandoc;
  winfo_geometry _ := "400x200+0+0"
}.

Definition theme : TkTheme :=
  {| theme_background := "#d9d9d9"; theme_label_bg := "#d9d9d9";
     theme_label_fg := "#000000" |}.

(** The application as [__main__] creates it. *)
Definition start (w : desk) : Sys desk :=
  boot theme "Manuskript to Markdown converter"
       {["root_geometry" := "400x200"]} w.

(** A novel with its companion directory, and a descriptor without one. *)
Definition shelf (answers : list string) (generator : result (list string))
    (unreadable : list string) : desk :=
  {| dirs := ["books"; "books/novel"];
     files := ["books/novel.msk"; "books/lost.msk"];
     answers := answers;
     generator := generator;
     unreadable := unreadable |}.

(** The user picks the novel; later answers come from [more]. *)
Definition novel_open (more : list string) (generator : result (list string))
    (unreadable : list string) : Sys desk :=
  step File_Open (start (shelf ("books/novel.msk" :: more) generator unreadable)).

End Desk.

(** * Sample values

    The path functions and [strip] on the inputs that tell their cases
    apart. *)

Example split_samples :
  map os_path.split ["a/b.msk"; "/b.msk"; "a//b.msk"; "b.msk"; "a/"; "///x.y.z"]
  = [("a", "b.msk"); ("/", "b.msk"); ("a", "b.msk"); ("", "b.msk"); ("a", "");
     ("///", "x.y.z")].
Proof. reflexivity. Qed.

Example splitext_samples :
  map os_path.splitext ["b.msk"; ".msk"; "..msk"; "x.y.z"; "x."; "a.b/c"; "...b"; ""]
  = [("b", ".msk"); (".msk", ""); ("..msk", ""); ("x.y", ".z"); ("x", ".");
     ("a.b/c", ""); ("...b", ""); ("", "")].
Proof. reflexivity. Qed.

Example join_samples :
  map (fun ab => os_path.join (fst ab) (snd ab))
      [("a", "b"); ("", "b"); ("/", "b"); ("a", ""); ("a/", "b"); ("a", "/b")]
  = ["a/b"; "b"; "/b"; "a/"; "a/b"; "/b"].
Proof. reflexivity. Qed.

Example normpath_samples :
  map os_path.normpath
      ["//a/../b/./c//d/.."; "///a"; "../../a/.."; "/.."; "a/../.."; ""; "a/b/"]
  = ["//b/c"; "/a"; "../.."; "/"; ".."; "."; "a/b"].
Proof. reflexivity. Qed.

Example strip_sample : PyStr.strip "  boom	 " = "boom".
Proof. reflexivity. Qed.

(** * Properties *)

(** ** Strings *)

Lemma truthy_false (s : string) : PyStr.truthy s = false <-> s = "".
Proof.
  unfold PyStr.truthy. destruct (String.eqb_spec s ""); simpl; split;
    intros; congruence.
Qed.

Lemma truthy_true (s : string) : PyStr.truthy s = true <-> s <> "".
Proof.
  unfold PyStr.truthy. destruct (String.eqb_spec s ""); simpl; split;
    intros; congruence.
Qed.

(** After [startswith('!')] the message is the marker followed by a rest,
    and [split('!', maxsplit=1)] has that rest at index 1. *)
Lemma split_max1_marker (message : string) :
  PyStr.startswith "!" message = true ->
  exists rest, message = String "!" rest
               /\ PyStr.split_max1 "!" message = [""; rest].
Proof.
  destruct message as [|c rest]; cbn -[Ascii.eqb]; [discriminate|].
  unfold PyStr.split_max1; cbn -[Ascii.eqb].
  rewrite (Ascii.eqb_sym c).
  destruct (Ascii.eqb_spec "!" c) as [<-|]; [|discriminate].
  intros _. exists rest. split; reflexivity.
Qed.

(** [s[1:]] drops the first character. *)
Lemma slice_from_1 (c : ascii) (t : string) :
  PyStr.slice_from 1 (String c t) = t.
Proof.
  unfold PyStr.slice_from, PyStr.bound, PyStr.len.
  change (1 <? 0) with false. cbv iota.
  replace (Z.min 1 (Z.of_nat (String.length (String c t)))) with 1
    by (cbn [String.length]; lia).
  reflexivity.
Qed.

(** ** Paths *)

Section Paths.
Import PyStr.

Lemma rfind_range (c : ascii) (s : string) : -1 <= rfind c s < len s.
Proof.
  unfold len. induction s as [|x t IH]; cbn [rfind String.length]; [lia|].
  destruct (Z.leb_spec 0 (rfind c t)); [lia|].
  destruct (Ascii.eqb x c); lia.
Qed.

Lemma rfind_occurs (c : ascii) (s : string) :
  occurs c s = (0 <=? rfind c s).
Proof.
  induction s as [|x t IH]; cbn [rfind occurs]; [reflexivity|].
  rewrite IH. pose proof (rfind_range c t).
  destruct (Z.leb_spec 0 (rfind c t)).
  - rewrite orb_true_r. symmetry. apply Z.leb_le. lia.
  - rewrite orb_false_r. destruct (Ascii.eqb x c); reflexivity.
Qed.

Lemma bound_cons (i : Z) (x : ascii) (t : string) :
  0 <= i -> bound (i + 1) (String x t) = S (bound i t).
Proof.
  intros Hi. unfold bound, len. cbn [String.length].
  destruct (Z.ltb_spec (i + 1) 0); [lia|].
  destruct (Z.ltb_spec i 0); lia.
Qed.

Lemma bound_0 (s : string) : bound 0 s = O.
Proof. unfold bound, len. cbn. lia. Qed.

Lemma slice_from_cons (i : Z) (x : ascii) (t : string) :
  0 <= i -> slice_from (i + 1) (String x t) = slice_from i t.
Proof. intros Hi. unfold slice_from. rewrite bound_cons by exact Hi. reflexivity. Qed.

Lemma slice_to_cons (i : Z) (x : ascii) (t : string) :
  0 <= i -> slice_to (i + 1) (String x t) = String x (slice_to i t).
Proof. intros Hi. unfold slice_to. rewrite bound_cons by exact Hi. reflexivity. Qed.

Lemma slice_from_0 (s : string) : slice_from 0 s = s.
Proof. unfold slice_from. rewrite bound_0. destruct s; reflexivity. Qed.

Lemma slice_to_0 (s : string) : slice_to 0 s = "".
Proof. unfold slice_to. rewrite bound_0. destruct s; reflexivity. Qed.

(** What follows the last [c] holds no [c]. *)
Lemma tail_without (c : ascii) (s : string) :
  occurs c (slice_from (rfind c s + 1) s) = false.
Proof.
  induction s as [|x t IH]; [reflexivity|].
  pose proof (rfind_occurs c t) as Ho. cbn [rfind].
  destruct (Z.leb_spec 0 (rfind c t)).
  - rewrite slice_from_cons by lia. exact IH.
  - destruct (Ascii.eqb x c) eqn:Ex.
    + change (0 + 1) with (0 + 1). rewrite slice_from_cons by lia.
      rewrite slice_from_0. exact Ho.
    + change (-1 + 1) with 0. rewrite slice_from_0. cbn [occurs].
      rewrite Ex, Ho. reflexivity.
Qed.

Lemma take_without (c : ascii) (n : nat) (s : string) :
  occurs c s = false -> occurs c (take n s) = false.
Proof.
  revert s. induction n as [|n IH]; intros [|x t]; cbn [take occurs];
    try reflexivity.
  intros Hs. apply orb_false_iff in Hs as [-> Ht]. cbn. apply IH, Ht.
Qed.

Lemma splitext_root_without (c : ascii) (p : string) :
  occurs c p = false -> occurs c (fst (os_path.splitext p)) = false.
Proof.
  intros Hp. unfold os_path.splitext.
  destruct (_ && _); cbn [fst]; [|exact Hp].
  apply take_without, Hp.
Qed.

Lemma startswith_without (c : ascii) (s rest : string) :
  occurs c s = false ->
  startswith (String c "") rest = false ->
  startswith (String c "") (s +:+ rest) = false.
Proof.
  destruct s as [|x t]; [intros _ Hr; exact Hr|].
  cbn [occurs]. intros Hs _. apply orb_false_iff in Hs as [Hx _].
  change (String x t +:+ rest) with (String x (t +:+ rest)).
  cbn [startswith]. rewrite Ascii.eqb_sym, Hx. reflexivity.
Qed.

Lemma split_tail_without (p : string) :
  occurs os_path.sep (snd (os_path.split p)) = false.
Proof. apply tail_without. Qed.

(** The directory and the base name [call_pandoc] computes are put
    together again with one separator between them, or none when the
    directory is empty or ends with one. *)
Lemma outputfile_shape (extension mdFile : string) :
  let dir := fst (os_path.split mdFile) in
  let name := fst (os_path.splitext (snd (os_path.split mdFile))) in
  outputfile extension mdFile
  = if truthy dir then
      if endswith "/" dir then dir +:+ name +:+ "." +:+ extension
      else dir +:+ "/" +:+ name +:+ "." +:+ extension
    else name +:+ "." +:+ extension.
Proof.
  intros dir name. subst dir name. unfold outputfile.
  pose proof (splitext_root_without _ _ (split_tail_without mdFile)) as Hname.
  destruct (os_path.split mdFile) as [dir file]. cbn [fst snd] in *.
  destruct (os_path.splitext file) as [name ext]. cbn [fst] in *.
  unfold os_path.join.
  rewrite (startswith_without os_path.sep name ("." +:+ extension) Hname eq_refl).
  destruct (truthy dir) eqn:Hdir; cbn [negb orb].
  - reflexivity.
  - apply truthy_false in Hdir. subst dir. reflexivity.
Qed.

(** *** The head [split] cuts off *)

Lemma take_drop (n : nat) (s : string) : take n s +:+ drop n s = s.
Proof.
  revert s. induction n as [|n IH]; intros [|x t]; try reflexivity.
  cbn [take drop]. change (String x (take n t) +:+ drop n t)
    with (String x (take n t +:+ drop n t)). rewrite IH. reflexivity.
Qed.

Lemma slice_to_from (i : Z) (s : string) : slice_to i s +:+ slice_from i s = s.
Proof. apply take_drop. Qed.

Lemma endswith_cons (c x : ascii) (t : string) :
  endswith c t = true -> endswith c (String x t) = true.
Proof. destruct t; [discriminate|]. intros Ht. exact Ht. Qed.

(** The head is empty or ends with the separator it was cut at. *)
Lemma head_ends (c : ascii) (s : string) :
  slice_to (rfind c s + 1) s = "" \/ endswith c (slice_to (rfind c s + 1) s) = true.
Proof.
  induction s as [|x t IH]; [left; reflexivity|]. cbn [rfind].
  destruct (Z.leb_spec 0 (rfind c t)).
  - rewrite slice_to_cons by lia. right. destruct IH as [E|E].
    + exfalso. pose proof (rfind_range c t). unfold slice_to, bound in E.
      destruct (Z.ltb_spec (rfind c t + 1) 0); [lia|].
      destruct t; [unfold len in *; cbn in *; lia|].
      replace (Z.to_nat (Z.min (rfind c (String a t) + 1) (len (String a t))))
        with (S (Z.to_nat (rfind c (String a t)))) in E by lia.
      discriminate.
    + apply endswith_cons, E.
  - destruct (Ascii.eqb x c) eqn:Ex.
    + right. rewrite slice_to_cons, slice_to_0 by lia. exact Ex.
    + left. apply slice_to_0.
Qed.

Lemma doubled_cons (c x y : ascii) (u : string) :
  doubled c (String x (String y u))
  = Ascii.eqb x c && Ascii.eqb y c || doubled c (String y u).
Proof. reflexivity. Qed.

Lemma take_not_doubled (c : ascii) (n : nat) (s : string) :
  doubled c s = false -> doubled c (take n s) = false.
Proof.
  revert s. induction n as [|n IH]; intros [|x t]; try reflexivity.
  intros Hs. cbn [take]. destruct t as [|y u]; [destruct n; reflexivity|].
  rewrite doubled_cons in Hs. apply orb_false_iff in Hs as [Hxy Ht].
  specialize (IH _ Ht). destruct n as [|n]; [reflexivity|].
  change (take (S n) (String y u)) with (String y (take n u)) in *.
  rewrite doubled_cons, Hxy. exact IH.
Qed.

Lemma rstrip_char_all (c : ascii) (s : string) :
  rstrip_char c s = "" -> s = repeat c (String.length s).
Proof.
  induction s as [|x t IH]; [reflexivity|]. cbn [rstrip_char].
  destruct (rstrip_char c t) eqn:Et; [|discriminate].
  destruct (Ascii.eqb_spec x c) as [->|]; [|discriminate].
  intros _. cbn [String.length repeat]. rewrite <- IH; reflexivity.
Qed.

Lemma rstrip_char_not_end (c : ascii) (s : string) :
  endswith c (rstrip_char c s) = false.
Proof.
  induction s as [|x t IH]; [reflexivity|]. cbn [rstrip_char].
  destruct (rstrip_char c t) as [|y u] eqn:Et.
  - destruct (Ascii.eqb x c) eqn:Ex; [reflexivity|]. exact Ex.
  - exact IH.
Qed.

(** Without doubled separators, [rstrip] takes one separator off. *)
Lemma rstrip_char_one (c : ascii) (s : string) :
  doubled c s = false -> endswith c s = true ->
  s = rstrip_char c s +:+ String c "".
Proof.
  induction s as [|x t IH]; [discriminate|].
  destruct t as [|y u].
  - intros _ Hx. cbn in Hx. apply Ascii.eqb_eq in Hx. subst x.
    cbn [rstrip_char]. rewrite Ascii.eqb_refl. reflexivity.
  - intros Hd He. rewrite doubled_cons in Hd.
    apply orb_false_iff in Hd as [Hxy Hd].
    change (endswith c (String y u) = true) in He.
    specialize (IH Hd He).
    change (rstrip_char c (String x (String y u)))
      with (match rstrip_char c (String y u) with
            | "" => if Ascii.eqb x c then "" else String x ""
            | t' => String x t'
            end).
    destruct (rstrip_char c (String y u)) as [|z v] eqn:Et.
    + injection IH as -> ->. rewrite Ascii.eqb_refl, andb_true_r in Hxy.
      rewrite Hxy. reflexivity.
    + rewrite IH at 1. reflexivity.
Qed.

(** *** [splitext] on a path is [splitext] on its last component *)

Lemma app_cons (x : ascii) (t b : string) :
  String x t +:+ b = String x (t +:+ b).
Proof. reflexivity. Qed.

Lemma app_assoc_str (a b c : string) : (a +:+ b) +:+ c = a +:+ (b +:+ c).
Proof.
  induction a as [|x t IH]; [reflexivity|]. rewrite !app_cons, IH. reflexivity.
Qed.

Lemma len_cons (x : ascii) (t : string) : len (String x t) = len t + 1.
Proof. unfold len. cbn [String.length]. lia. Qed.

Lemma len_nonneg (s : string) : 0 <= len s.
Proof. unfold len. lia. Qed.

Lemma rfind_absent (c : ascii) (s : string) :
  occurs c s = false -> rfind c s = -1.
Proof.
  rewrite rfind_occurs. pose proof (rfind_range c s).
  destruct (Z.leb_spec 0 (rfind c s)); [discriminate|lia].
Qed.

Lemma rfind_present (c : ascii) (s : string) :
  occurs c s = true -> 0 <= rfind c s.
Proof. rewrite rfind_occurs. apply Z.leb_le. Qed.

Lemma rfind_app (c : ascii) (a b : string) :
  rfind c (a +:+ b)
  = if occurs c b then len a + rfind c b else rfind c a.
Proof.
  induction a as [|x t IH].
  - change ("" +:+ b) with b. destruct (occurs c b) eqn:Hb; [reflexivity|].
    apply rfind_absent, Hb.
  - rewrite app_cons. cbn [rfind]. rewrite IH, len_cons.
    destruct (occurs c b) eqn:Hb; [|reflexivity].
    pose proof (rfind_present c b Hb). pose proof (len_nonneg t).
    destruct (Z.leb_spec 0 (len t + rfind c b)); lia.
Qed.

Lemma rfind_last (c : ascii) (a : string) :
  endswith c a = true -> rfind c a = len a - 1.
Proof.
  induction a as [|x t IH]; [discriminate|].
  destruct t as [|y u].
  - cbn. intros ->. reflexivity.
  - intros He. change (endswith c (String y u) = true) in He.
    specialize (IH He). rewrite len_cons.
    assert (1 <= len (String y u)) by (pose proof (len_nonneg u); rewrite len_cons; lia).
    remember (String y u) as t eqn:Et. cbn [rfind]. rewrite IH.
    destruct (Z.leb_spec 0 (len t - 1)); lia.
Qed.

Lemma rfind_before_last (c d : ascii) (a : string) :
  endswith c a = true -> Ascii.eqb c d = false -> rfind d a < len a - 1.
Proof.
  intros He Hcd. induction a as [|x t IH]; [discriminate|].
  destruct t as [|y u].
  - cbn in He. apply Ascii.eqb_eq in He. subst x. cbn [rfind].
    change (0 <=? -1) with false. cbv iota. rewrite Hcd. reflexivity.
  - change (endswith c (String y u) = true) in He. specialize (IH He).
    rewrite len_cons. remember (String y u) as t eqn:Et.
    cbn [rfind]. pose proof (len_nonneg u).
    assert (1 <= len t) by (subst t; rewrite len_cons; lia).
    destruct (Z.leb_spec 0 (rfind d t)); [lia|].
    destruct (Ascii.eqb x d); lia.
Qed.

Lemma slice_to_app (a b : string) (k : Z) :
  0 <= k -> slice_to (len a + k) (a +:+ b) = a +:+ slice_to k b.
Proof.
  intros Hk. induction a as [|x t IH]; [reflexivity|].
  pose proof (len_nonneg t).
  rewrite app_cons, len_cons.
  replace (len t + 1 + k) with (len t + k + 1) by lia.
  rewrite slice_to_cons, IH by lia. reflexivity.
Qed.

Lemma slice_cons (i j : Z) (x : ascii) (t : string) :
  0 <= i -> 0 <= j -> slice (i + 1) (j + 1) (String x t) = slice i j t.
Proof.
  intros Hi Hj. unfold slice. rewrite !bound_cons by assumption. reflexivity.
Qed.

Lemma slice_app (a b : string) (i j : Z) :
  0 <= i -> 0 <= j -> slice (len a + i) (len a + j) (a +:+ b) = slice i j b.
Proof.
  intros Hi Hj. induction a as [|x t IH]; [reflexivity|].
  pose proof (len_nonneg t).
  rewrite app_cons, len_cons.
  replace (len t + 1 + i) with (len t + i + 1) by lia.
  replace (len t + 1 + j) with (len t + j + 1) by lia.
  rewrite slice_cons by lia. exact IH.
Qed.

Lemma name_before_dot_app (a b : string) (n : nat) :
  forall k, 0 <= k ->
    os_path.name_before_dot n (a +:+ b) (len a + k)
    = os_path.name_before_dot n b k.
Proof.
  induction n as [|n IH]; intros k Hk; [reflexivity|].
  cbn [os_path.name_before_dot].
  replace (len a + k + 1) with (len a + (k + 1)) by lia.
  rewrite slice_app, IH by lia. reflexivity.
Qed.

Lemma splitext_app (a b : string) :
  occurs os_path.sep b = false ->
  a = "" \/ endswith os_path.sep a = true ->
  fst (os_path.splitext (a +:+ b)) = a +:+ fst (os_path.splitext b).
Proof.
  intros Hb Ha. unfold os_path.splitext.
  rewrite !rfind_app, Hb, (rfind_absent _ _ Hb).
  assert (Hsa : rfind os_path.sep a + 1 = len a).
  { destruct Ha as [->|Ha]; [reflexivity|]. rewrite (rfind_last _ _ Ha). lia. }
  destruct (occurs os_path.extsep b) eqn:Hdot.
  - pose proof (rfind_present _ _ Hdot) as Hdb. pose proof (len_nonneg a).
    replace (rfind os_path.sep a <? len a + rfind os_path.extsep b) with true
      by (symmetry; apply Z.ltb_lt; lia).
    replace (-1 <? rfind os_path.extsep b) with true
      by (symmetry; apply Z.ltb_lt; lia).
    rewrite Hsa. change (-1 + 1) with 0.
    replace (len a + rfind os_path.extsep b - len a)
      with (rfind os_path.extsep b - 0) by lia.
    rewrite <- (Z.add_0_r (len a)) at 1.
    rewrite name_before_dot_app by lia. cbn [andb].
    destruct (os_path.name_before_dot _ _ _); cbn [fst]; [|reflexivity].
    apply slice_to_app, Hdb.
  - rewrite (rfind_absent _ _ Hdot). change (-1 <? -1) with false.
    replace (rfind os_path.sep a <? rfind os_path.extsep a) with false;
      [reflexivity|].
    symmetry. apply Z.ltb_ge. destruct Ha as [->|Ha]; [reflexivity|].
    pose proof (rfind_before_last _ os_path.extsep _ Ha eq_refl).
    rewrite (rfind_last _ _ Ha). lia.
Qed.

Lemma startswith_absent (c : ascii) (s : string) :
  occurs c s = false -> startswith (String c "") s = false.
Proof.
  destruct s as [|x t]; [reflexivity|]. cbn [occurs startswith].
  intros Hs. apply orb_false_iff in Hs as [Hx _].
  rewrite Ascii.eqb_sym, Hx. reflexivity.
Qed.

(** On a path without doubled separators the directory [open_project]
    looks for is the selected path without its extension. *)
Lemma companion_strips_extension (f : string) :
  doubled os_path.sep f = false ->
  companion f = fst (os_path.splitext f).
Proof.
  intros Hd. unfold companion, os_path.split.
  set (i := rfind os_path.sep f + 1).
  pose proof (tail_without os_path.sep f) as Htail. fold i in Htail.
  pose proof (head_ends os_path.sep f) as Hhead. fold i in Hhead.
  pose proof (take_not_doubled _ (bound i f) _ Hd) as Hdh.
  change (take (bound i f) f) with (slice_to i f) in Hdh.
  replace (os_path.splitext f)
    with (os_path.splitext (slice_to i f +:+ slice_from i f))
    by (rewrite slice_to_from; reflexivity).
  rewrite (splitext_app _ _ Htail Hhead).
  pose proof (splitext_root_without _ _ Htail) as Hname.
  destruct (os_path.splitext (slice_from i f)) as [name ext]. cbn [fst] in *.
  set (head := slice_to i f) in *.
  unfold os_path.join. rewrite (startswith_absent _ _ Hname).
  destruct (truthy head) eqn:Ht; cbn [andb].
  2:{ rewrite Ht. reflexivity. }
  destruct Hhead as [E|Hend]; [apply truthy_true in Ht; contradiction|].
  destruct (os_path.all_sep head) eqn:Hall; cbn [negb].
  - rewrite Ht, Hend. reflexivity.
  - pose proof (rstrip_char_one _ _ Hdh Hend) as Hone.
    rewrite (rstrip_char_not_end os_path.sep head), orb_false_r.
    destruct (truthy (rstrip_char os_path.sep head)) eqn:Hr; cbn [negb].
    + rewrite Hone at 2. rewrite app_assoc_str. reflexivity.
    + apply truthy_false, rstrip_char_all in Hr.
      unfold os_path.all_sep in Hall. rewrite <- Hr, String.eqb_refl in Hall.
      discriminate.
Qed.

(** With a doubled separator the two differ as strings, though they name
    the same directory. *)
Example companion_doubled_separator :
  companion "books//novel.msk" = "books/novel"
  /\ fst (os_path.splitext "books//novel.msk") = "books//novel".
Proof. split; reflexivity. Qed.

End Paths.

(** ** The status reporter *)

(** What [set_info_how] does to a marked message, field by field. *)
Lemma set_info_how_marked (rest : string) (self : MainTk) :
  set_info_how (String "!" rest) self
  = set_statusBar {| bg := "red"; fg := "white"; text := PyStr.strip rest |}
      (set_infoHowText (PyStr.strip rest) self).
Proof. reflexivity. Qed.

Lemma set_info_how_unmarked (message : string) (self : MainTk) :
  PyStr.startswith "!" message = false ->
  set_info_how message self
  = set_statusBar {| bg := "green"; fg := "white"; text := message |}
      (set_infoHowText message self).
Proof. intros E. unfold set_info_how. rewrite E. reflexivity. Qed.

Lemma show_status_fields (message : string) (self : MainTk) :
  show_status message self
  = set_statusBar {| bg := root_background self; fg := "black";
                     text := message |}
      (set_statusText message self).
Proof. reflexivity. Qed.

(** C2, as stated, fails: the text after the marker is trimmed before it
    is stored, so [set_info_how('! boom')] stores ['boom'] and not the
    message with only its marker removed, [' boom']. *)
Lemma set_info_how_trims :
  infoHowText (set_info_how "! boom" (MainTk_init Desk.theme "t" ∅)) = "boom"
  /\ PyStr.slice_from 1 "! boom" = " boom"
  /\ infoHowText (set_info_how "! boom" (MainTk_init Desk.theme "t" ∅))
     <> PyStr.slice_from 1 "! boom".
Proof. repeat split. intros E. vm_compute in E. discriminate. Qed.

(** C2, amended: for every message that begins with the marker ['!'],
    [set_info_how] styles the status bar as an error (white on red) and
    stores and shows the message without its marker and without the white
    space around what is left; it leaves the stored status text alone, and a
    following [restore_status] shows that stored status text again, black on
    the root window's background. *)
Theorem set_info_how_error_then_restore (message : string) (self : MainTk) :
  PyStr.startswith "!" message = true ->
  let reported := set_info_how message self in
  let shown := PyStr.strip (PyStr.slice_from 1 message) in
  statusBar reported = {| bg := "red"; fg := "white"; text := shown |}
  /\ infoHowText reported = shown
  /\ _statusText reported = _statusText self
  /\ statusBar (restore_status reported)
     = {| bg := root_background self; fg := "black";
          text := _statusText self |}
  /\ _statusText (restore_status reported) = _statusText self
  /\ infoHowText (restore_status reported) = shown.
Proof.
  intros E. destruct (split_max1_marker message E) as (rest & -> & _).
  rewrite set_info_how_marked, slice_from_1.
  repeat split.
Qed.

Lemma set_info_how_error_then_restore_boom :
  PyStr.startswith "!" "!boom" = true
  /\ infoHowText (set_info_how "!boom" (MainTk_init Desk.theme "t" ∅)) = "boom"
  /\ statusBar (set_info_how "!boom" (MainTk_init Desk.theme "t" ∅))
     = {| bg := "red"; fg := "white"; text := "boom" |}
  /\ statusBar (restore_status
                  (set_info_how "!boom" (MainTk_init Desk.theme "t" ∅)))
     = {| bg := "#d9d9d9"; fg := "black"; text := "" |}.
Proof.
  pose proof (set_info_how_error_then_restore "!boom"
                (MainTk_init Desk.theme "t" ∅) eq_refl)
    as (Hbar & Hhow & _ & Hrestored & _ & _).
  split; [reflexivity|].
  split; [exact Hhow|].
  split; [exact Hbar|].
  exact Hrestored.
Defined.

(** ** Opening and closing a project *)

Section Opening.
Context {World : Type} `{Collaborators World}.
Local Open Scope shell_scope.

Lemma select_project_run (fileName : string) (s : Sys World) :
  select_project fileName s
  = if dialog_shown fileName s
    then (Ret (fst (dialog_answer s)), with_world (snd (dialog_answer s)) s)
    else (Ret fileName, s).
Proof.
  unfold select_project, dialog_shown, dialog_answer, bind, gets, query, call,
    ret.
  cbn beta iota.
  destruct (PyStr.truthy fileName) eqn:Et; cbn [negb orb].
  - destruct (os_path_isfile fileName (world s)); cbn [negb].
    + rewrite Et. reflexivity.
    + destruct (askopenfilename _ _ _ _) as [f w]. cbn [fst snd negb].
      destruct (PyStr.truthy f) eqn:Ef; cbn [negb]; [reflexivity|].
      apply truthy_false in Ef. subst f. reflexivity.
  - destruct (askopenfilename _ _ _ _) as [f w]. cbn [fst snd negb].
    destruct (PyStr.truthy f) eqn:Ef; cbn [negb]; [reflexivity|].
    apply truthy_false in Ef. subst f. reflexivity.
Qed.

(** [select_project] never raises, leaves the application object and the
    logs alone, and does not look at the status bar. *)
Lemma select_project_frame (fileName : string) (s : Sys World) :
  exists f w,
    select_project fileName s = (Ret f, with_world w s)
    /\ select_project fileName (with_app (restore_status (app s)) s)
       = (Ret f, with_world w (with_app (restore_status (app s)) s)).
Proof.
  rewrite !select_project_run.
  change (dialog_shown fileName (with_app (restore_status (app s)) s))
    with (dialog_shown fileName s).
  change (dialog_answer (with_app (restore_status (app s)) s))
    with (dialog_answer s).
  destruct (dialog_shown fileName s).
  - exists (fst (dialog_answer s)), (snd (dialog_answer s)). split; reflexivity.
  - exists fileName, (world s). split; [destruct s|]; reflexivity.
Qed.

Lemma open_project_dismissed (fileName : string) (s s1 : Sys World) :
  select_project fileName s = (Ret "", s1) ->
  open_project fileName s
  = (Ret false, with_app (restore_status (app s)) s1).
Proof.
  intros Hsel.
  destruct (select_project_frame fileName s) as (f & w & E1 & E2).
  rewrite E1 in Hsel. injection Hsel as -> <-.
  unfold open_project, bind at 1 2. unfold update at 1.
  cbn beta iota. rewrite E2. reflexivity.
Qed.

Lemma open_project_missing (fileName f : string) (s s1 : Sys World) :
  select_project fileName s = (Ret f, s1) ->
  f <> "" ->
  os_path_isdir (companion f) (world s1) = false ->
  open_project fileName s
  = (Ret false,
     with_app (set_prjName None (set_prjDir None (cleared (app s)))) s1).
Proof.
  intros Hsel Hf Hdir.
  destruct (select_project_frame fileName s) as (f' & w & E1 & E2).
  rewrite E1 in Hsel. injection Hsel as -> <-.
  apply truthy_true in Hf.
  unfold open_project, bind at 1 2. unfold update at 1.
  cbn beta iota. rewrite E2, Hf. cbn [negb].
  unfold companion in Hdir. unfold cleared.
  destruct (os_path.split f) as [dir file]. cbn [fst snd] in *.
  destruct (os_path.splitext file) as [name extension]. cbn [fst snd] in *.
  generalize dependent (os_path.join dir name). intros d Hdir.
  clear E1 E2. destruct s as [w0 [] cv fw].
  cbn [world with_world] in Hdir.
  destruct prjDir0;
    lazy beta iota zeta delta -[os_path.normpath os_path_isdir];
    rewrite Hdir; reflexivity.
Qed.

Lemma open_project_found (fileName f : string) (s s1 : Sys World) :
  select_project fileName s = (Ret f, s1) ->
  f <> "" ->
  os_path_isdir (companion f) (world s1) = true ->
  open_project fileName s
  = (Ret true,
     with_app
       (enable_menu
          (show_path (os_path.normpath (companion f))
             (set_prjDir (Some (companion f))
                (set_prjName
                   (Some (fst (os_path.splitext (snd (os_path.split f)))))
                   (cleared (app s))))))
       s1).
Proof.
  intros Hsel Hf Hdir.
  destruct (select_project_frame fileName s) as (f' & w & E1 & E2).
  rewrite E1 in Hsel. injection Hsel as -> <-.
  apply truthy_true in Hf.
  unfold open_project, bind at 1 2. unfold update at 1.
  cbn beta iota. rewrite E2, Hf. cbn [negb].
  unfold companion in *. unfold cleared.
  destruct (os_path.split f) as [dir file]. cbn [fst snd] in *.
  destruct (os_path.splitext file) as [name extension]. cbn [fst snd] in *.
  generalize dependent (os_path.join dir name). intros d Hdir.
  clear E1 E2. destruct s as [w0 [] cv fw].
  cbn [world with_world] in Hdir.
  destruct prjDir0;
    lazy beta iota zeta delta -[os_path.normpath os_path_isdir];
    rewrite Hdir; reflexivity.
Qed.

Lemma cleared_fields (self : MainTk) :
  match prjDir self with
  | Some _ =>
      prjDir (cleared self) = None
      /\ _statusText (cleared self) = ""
      /\ _pathText (cleared self) = Some ""
      /\ text (pathBar (cleared self)) = ""
      /\ root_title (cleared self) = title self
  | None =>
      prjDir (cleared self) = None
      /\ _statusText (cleared self) = _statusText self
      /\ _pathText (cleared self) = _pathText self
      /\ pathBar (cleared self) = pathBar self
      /\ root_title (cleared self) = root_title self
      /\ fileMenu_Close (cleared self) = fileMenu_Close self
      /\ mainMenu_Convert (cleared self) = mainMenu_Convert self
      /\ statusBar (cleared self)
         = {| bg := root_background self; fg := "black";
              text := _statusText self |}
  end
  /\ infoHowText (cleared self) = infoHowText self
  /\ (prjDir self <> None ->
      fileMenu_Close (cleared self) = disabled
      /\ mainMenu_Convert (cleared self) = disabled).
Proof.
  destruct self as [? ? ? ? ? ? [d|] ? ? ? ? ? ? ? ? ?]; unfold cleared;
    cbn [prjDir]; repeat split; congruence.
Qed.

(** C1: whenever the selection yields a file path, [open_project] returns
    [True] exactly when the companion directory exists, and [False]
    otherwise; on success that directory is the open project.  The
    companion directory is the selected path without its extension (put
    together again by [os.path.join], which is the same string unless the
    path doubles a separator).  Nothing is asked of the selected file
    itself: it need not exist. *)
Theorem open_project_iff_companion_exists
    (fileName f : string) (s s1 : Sys World) :
  select_project fileName s = (Ret f, s1) ->
  f <> "" ->
  fst (open_project fileName s)
  = Ret (os_path_isdir (companion f) (world s1))
  /\ (os_path_isdir (companion f) (world s1) = true ->
      prjDir (app (snd (open_project fileName s))) = Some (companion f))
  /\ (os_path_isdir (companion f) (world s1) = false ->
      prjDir (app (snd (open_project fileName s))) = None)
  /\ (doubled os_path.sep f = false ->
      companion f = fst (os_path.splitext f)).
Proof.
  intros Hsel Hf. split; [|split; [|split]].
  - destruct (os_path_isdir (companion f) (world s1)) eqn:Hdir.
    + rewrite (open_project_found _ _ _ _ Hsel Hf Hdir). reflexivity.
    + rewrite (open_project_missing _ _ _ _ Hsel Hf Hdir). reflexivity.
  - intros Hdir. rewrite (open_project_found _ _ _ _ Hsel Hf Hdir).
    reflexivity.
  - intros Hdir. rewrite (open_project_missing _ _ _ _ Hsel Hf Hdir).
    reflexivity.
  - apply companion_strips_extension.
Qed.

(** C7: when the file dialog is shown and dismissed, [select_project]
    returns the empty string and [open_project] returns [False]; nothing is
    reported: the stored status text and how-text are what they were, and
    the status bar shows the stored status text, as [restore_status] leaves
    it. *)
Theorem open_project_dialog_dismissed (fileName : string) (s : Sys World) :
  dialog_shown fileName s = true ->
  fst (dialog_answer s) = "" ->
  let s1 := with_world (snd (dialog_answer s)) s in
  select_project fileName s = (Ret "", s1)
  /\ open_project fileName s
     = (Ret false, with_app (restore_status (app s)) s1)
  /\ infoHowText (app (snd (open_project fileName s))) = infoHowText (app s)
  /\ _statusText (app (snd (open_project fileName s))) = _statusText (app s)
  /\ text (statusBar (app (snd (open_project fileName s))))
     = _statusText (app s).
Proof.
  intros Hshown Hanswer s1.
  assert (Hsel : select_project fileName s = (Ret "", s1)).
  { rewrite select_project_run, Hshown, Hanswer. reflexivity. }
  rewrite (open_project_dismissed _ _ _ Hsel).
  repeat split. exact Hsel.
Qed.

(** C10: a failed open is not atomic.  With a project open, selecting a
    file whose companion directory is missing makes [open_project] return
    [False] after the open project has been closed: [prjDir] is [None], the
    path bar is cleared and 'Close' and 'Convert' are disabled. *)
Theorem failed_open_closes_open_project
    (fileName f d : string) (s s1 : Sys World) :
  prjDir (app s) = Some d ->
  select_project fileName s = (Ret f, s1) ->
  f <> "" ->
  os_path_isdir (companion f) (world s1) = false ->
  let after := app (snd (open_project fileName s)) in
  fst (open_project fileName s) = Ret false
  /\ prjDir after = None
  /\ _pathText after = Some ""
  /\ text (pathBar after) = ""
  /\ fileMenu_Close after = disabled
  /\ mainMenu_Convert after = disabled.
Proof.
  intros Hopen Hsel Hf Hdir after. subst after.
  rewrite (open_project_missing _ _ _ _ Hsel Hf Hdir).
  pose proof (cleared_fields (app s)) as Hc. rewrite Hopen in Hc.
  destruct Hc as ((_ & _ & Hpath & Hbar & _) & _ & Hmenu).
  destruct Hmenu as (Hclose & Hconvert); [congruence|].
  cbn [fst snd app with_app].
  repeat split; assumption.
Qed.


End Opening.

(** ** Generating and converting *)

Section Converting.
Context {World : Type} `{Collaborators World}.
Local Open Scope shell_scope.

Lemma only_reported_refl (a : MainTk) : only_reported a a.
Proof. destruct a. reflexivity. Qed.

Lemma only_reported_trans (a b c : MainTk) :
  only_reported a b -> only_reported b c -> only_reported a c.
Proof.
  unfold only_reported. destruct a, b, c.
  lazy beta iota zeta delta. intros [= -> -> -> -> -> -> -> -> -> -> -> -> -> ->].
  intros [= -> -> -> -> -> -> -> -> -> -> -> -> -> ->]. reflexivity.
Qed.

Lemma only_reported_set_info_how (message : string) (a : MainTk) :
  only_reported a (set_info_how message a).
Proof.
  destruct a. unfold only_reported, set_info_how.
  destruct (PyStr.startswith "!" message); reflexivity.
Qed.

Lemma only_reported_keeps (a b : MainTk) :
  only_reported a b ->
  prjDir b = prjDir a
  /\ fileMenu_Close b = fileMenu_Close a
  /\ mainMenu_Convert b = mainMenu_Convert a
  /\ outputType b = outputType a
  /\ _statusText b = _statusText a
  /\ pathBar b = pathBar a.
Proof.
  unfold only_reported. destruct a, b. lazy beta iota zeta delta.
  intros [= -> -> -> -> -> -> -> -> -> -> -> -> -> ->]. repeat split.
Qed.

(** One turn of the loop of [call_pandoc]: the converter is called, and
    its exception, if any, is shown by [set_info_how] as it is. *)
Lemma attempt_run (c : conversion) (s : Sys World) :
  try_except (convert_file c)
             (fun ex => update (set_info_how (str_of ex))) s
  = let '(r, w) := pypandoc_convert_file c (world s) in
    let s' := {| world := w; app := app s; converted := converted s ++ [c];
                 forwarded := forwarded s |} in
    match r with
    | Ret _ => (Ret tt, s')
    | Raise ex => (Ret tt, with_app (set_info_how (str_of ex) (app s)) s')
    end.
Proof.
  unfold try_except, convert_file, update.
  destruct (pypandoc_convert_file c (world s)) as [[[]|ex] w]; reflexivity.
Qed.

(** The loop attempts every file, in order, whatever happened before. *)
Lemma for_each_attempts (extension : string) (fileList : list string) :
  forall s : Sys World,
    let r :=
      for_each fileList (fun mdFile =>
        try_except (convert_file (conversion_of extension mdFile))
                   (fun ex => update (set_info_how (str_of ex)))) s in
    fst r = Ret tt
    /\ converted (snd r)
       = (converted s ++ map (conversion_of extension) fileList)%list
    /\ forwarded (snd r) = forwarded s
    /\ only_reported (app s) (app (snd r)).
Proof.
  induction fileList as [|mdFile rest IH]; intros s.
  - cbn. rewrite app_nil_r. repeat split. apply only_reported_refl.
  - cbn [for_each map]. unfold bind. rewrite attempt_run.
    destruct (pypandoc_convert_file _ _) as [[[]|ex] w]; cbn beta iota zeta;
      match goal with
      | |- context [for_each rest ?body ?s1] =>
          destruct (IH s1) as (Hr & Hc & Hf & Ha);
          destruct (for_each rest body s1) as [r s2]
      end;
      cbn [fst snd] in *; subst r; cbn [converted forwarded app with_app] in *;
      rewrite Hc, <- app_assoc; repeat split; try assumption.
    eapply only_reported_trans; [apply only_reported_set_info_how|exact Ha].
Qed.

Lemma for_each_ext {A} (xs : list A) (f g : A -> M World unit) :
  (forall x s, f x s = g x s) ->
  forall s, for_each xs f s = for_each xs g s.
Proof.
  intros Hfg. induction xs as [|x rest IH]; intros s; [reflexivity|].
  cbn [for_each]. unfold bind. rewrite Hfg.
  destruct (g x s) as [[[]|ex] s']; [apply IH|reflexivity].
Qed.

(** The system as [call_pandoc] finds it, its entry noted. *)
Lemma enter_call_pandoc_run (fileList : list string) (s : Sys World) :
  enter_call_pandoc fileList s
  = (Ret tt, {| world := world s; app := app s; converted := converted s;
                forwarded := forwarded s ++ [fileList] |}).
Proof. reflexivity. Qed.

Lemma call_pandoc_source_format (fileList : list string) (s : Sys World) :
  outputType (app s) <= 0 ->
  call_pandoc fileList s = (Ret tt, snd (enter_call_pandoc fileList s)).
Proof.
  intros Hidx. unfold call_pandoc, bind, gets. cbn.
  destruct (Z.ltb_spec 0 (outputType (app s))); [lia|reflexivity].
Qed.

Lemma call_pandoc_other_format
    (fileList : list string) (extension : string) (s : Sys World) :
  0 < outputType (app s) ->
  nth_error OUTPUT_TYPES (Z.to_nat (outputType (app s))) = Some extension ->
  call_pandoc fileList s
  = for_each fileList (fun mdFile =>
      try_except (convert_file (conversion_of extension mdFile))
                 (fun ex => update (set_info_how (str_of ex))))
      (snd (enter_call_pandoc fileList s)).
Proof.
  intros Hidx Hext. unfold call_pandoc, bind at 1 2, gets.
  rewrite enter_call_pandoc_run. cbn [app snd].
  destruct (Z.ltb_spec 0 (outputType (app s))); [|lia].
  assert (E0 : (outputType (app s) <? 0) = false) by (apply Z.ltb_ge; lia).
  assert (Hlt : (Z.to_nat (outputType (app s)) < List.length OUTPUT_TYPES)%nat)
    by (apply nth_error_Some; congruence).
  cbn [List.length OUTPUT_TYPES] in Hlt.
  assert (Efit : (outputType (app s) <? -9223372036854775808)
                 || (9223372036854775807 <? outputType (app s)) = false).
  { apply orb_false_iff. split; apply Z.ltb_ge; lia. }
  unfold bind, subscript. rewrite Efit. cbv zeta. rewrite !E0, Hext.
  unfold ret.
  apply for_each_ext. intros mdFile s'.
  unfold conversion_of, outputfile.
  destruct (os_path.split mdFile) as [dir file].
  destruct (os_path.splitext file) as [name ext]. reflexivity.
Qed.

(** Beyond the last output type the subscript raises an [IndexError],
    before any file is looked at. *)
Lemma call_pandoc_no_such_format (fileList : list string) (s : Sys World) :
  Z.of_nat (List.length OUTPUT_TYPES) <= outputType (app s) ->
  exists message,
    call_pandoc fileList s
    = (Raise (IndexError message), snd (enter_call_pandoc fileList s)).
Proof.
  intros Hidx. unfold call_pandoc, bind at 1 2, gets.
  rewrite enter_call_pandoc_run. cbn [app snd].
  cbn [List.length OUTPUT_TYPES] in Hidx.
  destruct (Z.ltb_spec 0 (outputType (app s))); [|lia].
  assert (E0 : (outputType (app s) <? 0) = false) by (apply Z.ltb_ge; lia).
  unfold bind, subscript.
  destruct ((outputType (app s) <? -9223372036854775808)
            || (9223372036854775807 <? outputType (app s)));
    [eexists; reflexivity|].
  cbv zeta. rewrite !E0.
  destruct (nth_error OUTPUT_TYPES (Z.to_nat (outputType (app s)))) eqn:E;
    [|eexists; reflexivity].
  assert (Hlt : (Z.to_nat (outputType (app s)) < List.length OUTPUT_TYPES)%nat)
    by (apply nth_error_Some; congruence).
  cbn [List.length OUTPUT_TYPES] in Hlt. lia.
Qed.

(** Whatever the selection, [call_pandoc] touches the shown how-text only
    and notes its own entry once. *)
Lemma call_pandoc_frame (fileList : list string) (s : Sys World) :
  only_reported (app s) (app (snd (call_pandoc fileList s)))
  /\ forwarded (snd (call_pandoc fileList s)) = (forwarded s ++ [fileList])%list.
Proof.
  destruct (Z.le_gt_cases (outputType (app s)) 0) as [Hle|Hgt].
  { rewrite call_pandoc_source_format by exact Hle.
    split; [apply only_reported_refl|reflexivity]. }
  destruct (nth_error OUTPUT_TYPES (Z.to_nat (outputType (app s)))) eqn:E.
  - rewrite (call_pandoc_other_format _ _ _ Hgt E).
    destruct (for_each_attempts s0 fileList (snd (enter_call_pandoc fileList s)))
      as (_ & _ & Hf & Ha).
    split; [exact Ha|exact Hf].
  - destruct (call_pandoc_no_such_format fileList s) as (message & Eraise).
    + apply nth_error_None in E. lia.
    + rewrite Eraise. split; [apply only_reported_refl|reflexivity].
Qed.

(** C5: with the source format selected (index 0), [call_pandoc] returns
    without a single call to the converter, whatever the file list: the log
    of conversions, the world and the application object are untouched. *)
Theorem call_pandoc_source_format_converts_nothing
    (fileList : list string) (s : Sys World) :
  outputType (app s) = 0 ->
  fst (call_pandoc fileList s) = Ret tt
  /\ converted (snd (call_pandoc fileList s)) = converted s
  /\ world (snd (call_pandoc fileList s)) = world s
  /\ app (snd (call_pandoc fileList s)) = app s.
Proof.
  intros Hidx. rewrite call_pandoc_source_format by lia. repeat split.
Qed.

(** The converter is called only for another format than the source. *)
Corollary conversion_only_for_other_formats
    (fileList : list string) (s : Sys World) :
  converted (snd (call_pandoc fileList s)) <> converted s ->
  outputType (app s) <> 0.
Proof.
  intros Hcalled Hidx. apply Hcalled.
  rewrite call_pandoc_source_format by lia. reflexivity.
Qed.

(** Every file of a batch is attempted, in order, whether or not earlier
    ones failed. *)
Lemma call_pandoc_attempts_every_file
    (fileList : list string) (extension : string) (s : Sys World) :
  0 < outputType (app s) ->
  nth_error OUTPUT_TYPES (Z.to_nat (outputType (app s))) = Some extension ->
  fst (call_pandoc fileList s) = Ret tt
  /\ converted (snd (call_pandoc fileList s))
     = (converted s ++ map (conversion_of extension) fileList)%list.
Proof.
  intros Hidx Hext. rewrite (call_pandoc_other_format _ _ _ Hidx Hext).
  destruct (for_each_attempts extension fileList
              (snd (enter_call_pandoc fileList s))) as (Hr & Hc & _ & _).
  split; assumption.
Qed.

(** A failed conversion is shown by [set_info_how] without the marker,
    and so in the colours of success. *)
Lemma conversion_failure_shown_as_success
    (mdFile extension : string) (ex : exn) (w : World) (s : Sys World) :
  0 < outputType (app s) ->
  nth_error OUTPUT_TYPES (Z.to_nat (outputType (app s))) = Some extension ->
  pypandoc_convert_file (conversion_of extension mdFile) (world s)
  = (Raise ex, w) ->
  PyStr.startswith "!" (str_of ex) = false ->
  statusBar (app (snd (call_pandoc [mdFile] s)))
  = {| bg := "green"; fg := "white"; text := str_of ex |}.
Proof.
  intros Hidx Hext Hfail Hmark.
  rewrite (call_pandoc_other_format _ _ _ Hidx Hext).
  cbn [for_each]. unfold bind. rewrite attempt_run.
  rewrite enter_call_pandoc_run. cbn [snd world]. rewrite Hfail.
  cbn [snd app with_app ret]. rewrite (set_info_how_unmarked _ _ Hmark).
  reflexivity.
Qed.

Lemma convert_run (c : category) (s : Sys World) :
  convert c s
  = match generator_of c (prjDir (app s)) (world s) with
    | (Ret fileList, w) =>
        call_pandoc fileList
          (with_app
             (set_info_how
                match c with
                | outline => "Outline documents written."
                | story_world => "Story world document written."
                | characters => "Character sheets document written."
                end (app s))
             (with_world w s))
    | (Raise ex, w) =>
        (Ret tt,
         with_app (set_info_how ("!" +:+ str_of ex) (app s)) (with_world w s))
    end.
Proof.
  destruct c; cbn [convert generator_of];
    unfold convert_outline, convert_world, convert_characters,
      try_except_else, bind, gets, call_raising, update, ret;
    cbn beta iota;
    [ destruct (mskmd_convert_outline (prjDir (app s)) (world s))
        as [[fileList|ex] w]
    | destruct (mskmd_convert_world (prjDir (app s)) (world s))
        as [[fileList|ex] w]
    | destruct (mskmd_convert_characters (prjDir (app s)) (world s))
        as [[fileList|ex] w] ];
    reflexivity.
Qed.

(** The handlers of the Convert menu touch the shown how-text only. *)
Lemma convert_frame (c : category) (s : Sys World) :
  only_reported (app s) (app (snd (convert c s))).
Proof.
  rewrite convert_run.
  destruct (generator_of c (prjDir (app s)) (world s)) as [[fileList|ex] w].
  - eapply only_reported_trans; [|apply call_pandoc_frame].
    apply only_reported_set_info_how.
  - apply only_reported_set_info_how.
Qed.

(** C3: in each of the three categories, when the generator raises, the
    handler reports the exception's text behind the marker ['!'], so that
    the status bar shows it white on red; [call_pandoc] is not entered and
    the converter is not called; the menu entries and the open project are
    what they were. *)
Theorem generation_failure_forwards_nothing
    (c : category) (ex : exn) (w : World) (s : Sys World) :
  generator_of c (prjDir (app s)) (world s) = (Raise ex, w) ->
  let s' := snd (convert c s) in
  fst (convert c s) = Ret tt
  /\ app s' = set_info_how ("!" +:+ str_of ex) (app s)
  /\ statusBar (app s')
     = {| bg := "red"; fg := "white"; text := PyStr.strip (str_of ex) |}
  /\ forwarded s' = forwarded s
  /\ converted s' = converted s
  /\ fileMenu_Close (app s') = fileMenu_Close (app s)
  /\ mainMenu_Convert (app s') = mainMenu_Convert (app s)
  /\ prjDir (app s') = prjDir (app s).
Proof.
  intros Hgen s'. subst s'. rewrite convert_run, Hgen.
  cbn [fst snd app with_app with_world forwarded converted].
  change ("!" +:+ str_of ex) with (String "!" (str_of ex)).
  rewrite set_info_how_marked. repeat split.
Qed.

(** C9: with a format other than the source selected, [call_pandoc]
    calls the converter once for each Markdown file of the batch, in order,
    with the file as source, the selected format as target, and as output
    file the base name of the source without its extension, followed by a
    dot and the format's name, joined to the directory of the source: one
    separator is put between them, unless the directory is empty or ends
    with one. *)
Theorem call_pandoc_output_paths
    (fileList : list string) (extension : string) (s : Sys World) :
  0 < outputType (app s) ->
  nth_error OUTPUT_TYPES (Z.to_nat (outputType (app s))) = Some extension ->
  converted (snd (call_pandoc fileList s))
  = (converted s ++ map (conversion_of extension) fileList)%list
  /\ forall mdFile,
       let dir := fst (os_path.split mdFile) in
       let name := fst (os_path.splitext (snd (os_path.split mdFile))) in
       cv_source (conversion_of extension mdFile) = mdFile
       /\ cv_to (conversion_of extension mdFile) = extension
       /\ dir = os_path.dirname mdFile
       /\ cv_outputfile (conversion_of extension mdFile)
          = os_path.join dir (name +:+ "." +:+ extension)
       /\ cv_outputfile (conversion_of extension mdFile)
          = if PyStr.truthy dir then
              if PyStr.endswith "/" dir
              then dir +:+ name +:+ "." +:+ extension
              else dir +:+ "/" +:+ name +:+ "." +:+ extension
            else name +:+ "." +:+ extension.
Proof.
  intros Hidx Hext.
  split; [apply (call_pandoc_attempts_every_file _ _ _ Hidx Hext)|].
  intros mdFile dir name. subst dir name.
  split; [reflexivity|]. split; [reflexivity|]. split; [reflexivity|].
  split; [|apply outputfile_shape].
  cbn [cv_outputfile conversion_of]. unfold outputfile.
  destruct (os_path.split mdFile) as [dir file]. cbn [fst snd].
  destruct (os_path.splitext file) as [name ext]. reflexivity.
Qed.

End Converting.

(** ** The menu over a session *)

Section Session.
Context {World : Type} `{Collaborators World}.

Lemma menu_follows_project_iff (self : MainTk) :
  menu_follows_project self <->
  ((fileMenu_Close self = normal /\ mainMenu_Convert self = normal
    <-> prjDir self <> None)
   /\ (fileMenu_Close self = disabled /\ mainMenu_Convert self = disabled
       <-> prjDir self = None)).
Proof.
  unfold menu_follows_project.
  destruct (prjDir self), (fileMenu_Close self), (mainMenu_Convert self);
    intuition congruence.
Qed.

Lemma only_reported_menu (a b : MainTk) :
  only_reported a b -> menu_follows_project a -> menu_follows_project b.
Proof.
  intros Hab. apply only_reported_keeps in Hab as (Hp & Hc & Hv & _).
  unfold menu_follows_project. rewrite Hp, Hc, Hv. tauto.
Qed.

Lemma restore_status_menu (a : MainTk) :
  menu_follows_project a -> menu_follows_project (restore_status a).
Proof. destruct a. exact id. Qed.

Lemma close_project_menu (a : MainTk) :
  menu_follows_project (close_project a).
Proof. destruct a. lazy. split; reflexivity. Qed.

Lemma cleared_menu (a : MainTk) :
  menu_follows_project a ->
  prjDir (cleared a) = None
  /\ fileMenu_Close (cleared a) = disabled
  /\ mainMenu_Convert (cleared a) = disabled.
Proof.
  unfold menu_follows_project, cleared.
  destruct a as [? ? ? ? ? ? [d|] ? ? ? ? ? ? ? ? ?]; cbn [prjDir];
    [intros _|intros []]; repeat split; assumption.
Qed.

(** What [open_project] can do, by the answer of the selection. *)
Lemma open_project_cases (fileName : string) (s : Sys World) :
  exists f s1,
    select_project fileName s = (Ret f, s1)
    /\ ((f = ""
         /\ open_project fileName s
            = (Ret false, with_app (restore_status (app s)) s1))
        \/ (f <> "" /\ os_path_isdir (companion f) (world s1) = false
            /\ open_project fileName s
               = (Ret false,
                  with_app (set_prjName None (set_prjDir None (cleared (app s))))
                           s1))
        \/ (f <> "" /\ os_path_isdir (companion f) (world s1) = true
            /\ fst (open_project fileName s) = Ret true
            /\ prjDir (app (snd (open_project fileName s)))
               = Some (companion f)
            /\ fileMenu_Close (app (snd (open_project fileName s))) = normal
            /\ mainMenu_Convert (app (snd (open_project fileName s)))
               = normal)).
Proof.
  destruct (select_project_frame fileName s) as (f & w & Hsel & _).
  exists f, (with_world w s). split; [exact Hsel|].
  destruct (String.eqb_spec f "") as [->|Hf].
  { left. split; [reflexivity|]. apply open_project_dismissed, Hsel. }
  right.
  destruct (os_path_isdir (companion f) (world (with_world w s))) eqn:Hdir.
  - right. rewrite (open_project_found _ _ _ _ Hsel Hf Hdir). repeat split.
    assumption.
  - left. repeat split; try assumption.
    apply (open_project_missing _ _ _ _ Hsel Hf Hdir).
Qed.

Lemma open_project_menu (fileName : string) (s : Sys World) :
  menu_follows_project (app s) ->
  menu_follows_project (app (snd (open_project fileName s))).
Proof.
  intros Hinv.
  destruct (open_project_cases fileName s)
    as (f & s1 & _ & [(_ & E)|[(_ & _ & E)|(_ & _ & _ & Hp & Hc & Hv)]]).
  - rewrite E. apply restore_status_menu, Hinv.
  - rewrite E. cbn [snd app with_app].
    destruct (cleared_menu _ Hinv) as (Hp & Hc & Hv).
    unfold menu_follows_project.
    cbn [prjDir set_prjName set_prjDir fileMenu_Close mainMenu_Convert].
    split; assumption.
  - unfold menu_follows_project. rewrite Hp. split; assumption.
Qed.

Lemma app_update (f : MainTk -> MainTk) (s : Sys World) :
  app (snd (update f s)) = f (app s).
Proof. reflexivity. Qed.

Lemma app_open_project_handler (s : Sys World) :
  app (snd (bind (open_project "") (fun _ => ret tt) s))
  = app (snd (open_project "" s)).
Proof.
  unfold bind, ret. destruct (open_project "" s) as [[b|ex] s']; reflexivity.
Qed.

Lemma app_on_quit (s : Sys World) :
  app (snd (on_quit s))
  = set_kwargs (<["root_geometry" := winfo_geometry (world s)]> (kwargs (app s)))
               (app s).
Proof. reflexivity. Qed.

Lemma step_menu (e : event World) (s : Sys World) :
  menu_follows_project (app s) -> menu_follows_project (app (step e s)).
Proof.
  intros Hinv. unfold step.
  destruct e; cbn [handler]; unfold _open_project;
    rewrite ?app_update, ?app_open_project_handler, ?app_on_quit.
  - apply restore_status_menu, Hinv.
  - apply open_project_menu, Hinv.
  - exact Hinv.
  - apply restore_status_menu, Hinv.
  - apply open_project_menu, Hinv.
  - apply close_project_menu.
  - exact Hinv.
  - apply (only_reported_menu _ _ (convert_frame outline s) Hinv).
  - apply (only_reported_menu _ _ (convert_frame story_world s) Hinv).
  - apply (only_reported_menu _ _ (convert_frame characters s) Hinv).
  - exact Hinv.
  - exact Hinv.
Qed.

Lemma reachable_menu (s : Sys World) :
  reachable s -> menu_follows_project (app s).
Proof.
  induction 1 as [theme title kw w|e s _ IH _].
  - split; reflexivity.
  - apply step_menu, IH.
Qed.

(** C6, amended: in every reachable state 'Close' and 'Convert' are
    enabled exactly when a project is open and disabled exactly when none
    is.  They start disabled; an [open_project] that returns [True] enables
    them; [close_project] disables them; an [open_project] that fails on a
    missing companion directory leaves or puts them disabled; and an
    [open_project] whose selection comes back empty returns [False] and
    leaves the entries and the open project as they were. *)
Theorem menu_enabled_iff_project_open (s : Sys World) :
  reachable s ->
  (fileMenu_Close (app s) = normal /\ mainMenu_Convert (app s) = normal
   <-> prjDir (app s) <> None)
  /\ (fileMenu_Close (app s) = disabled /\ mainMenu_Convert (app s) = disabled
      <-> prjDir (app s) = None)
  /\ (forall theme title kw (w : World),
        fileMenu_Close (app (boot theme title kw w)) = disabled
        /\ mainMenu_Convert (app (boot theme title kw w)) = disabled
        /\ prjDir (app (boot theme title kw w)) = None)
  /\ (forall fileName,
        let after := app (snd (open_project fileName s)) in
        (fst (open_project fileName s) = Ret true ->
         fileMenu_Close after = normal /\ mainMenu_Convert after = normal
         /\ prjDir after <> None)
        /\ (fst (open_project fileName s) = Ret false ->
            fst (select_project fileName s) <> Ret "" ->
            fileMenu_Close after = disabled
            /\ mainMenu_Convert after = disabled
            /\ prjDir after = None)
        /\ (fst (select_project fileName s) = Ret "" ->
            fst (open_project fileName s) = Ret false
            /\ fileMenu_Close after = fileMenu_Close (app s)
            /\ mainMenu_Convert after = mainMenu_Convert (app s)
            /\ prjDir after = prjDir (app s)))
  /\ (fileMenu_Close (close_project (app s)) = disabled
      /\ mainMenu_Convert (close_project (app s)) = disabled
      /\ prjDir (close_project (app s)) = None).
Proof.
  intros Hreach. pose proof (reachable_menu s Hreach) as Hinv.
  destruct (proj1 (menu_follows_project_iff _) Hinv) as (Hon & Hoff).
  split; [exact Hon|]. split; [exact Hoff|].
  split; [intros; repeat split|].
  split; [|destruct (app s); repeat split].
  intros fileName after. subst after.
  destruct (open_project_cases fileName s)
    as (f & s1 & Hsel & [(-> & E)|[(Hf & _ & E)|(Hf & _ & Hr & Hp & Hc & Hv)]]).
  - rewrite E, Hsel. cbn [fst snd app with_app].
    split; [discriminate|]. split; [congruence|]. intros _.
    destruct (app s); repeat split.
  - rewrite E, Hsel. cbn [fst snd app with_app].
    destruct (cleared_menu _ Hinv) as (Hp & Hc & Hv).
    split; [discriminate|]. split; [|intros [= ->]; congruence].
    intros _ _.
    cbn [prjDir set_prjName set_prjDir fileMenu_Close mainMenu_Convert].
    repeat split; assumption.
  - rewrite Hr, Hsel, Hp, Hc, Hv. cbn [fst].
    split; [intros _; repeat split; discriminate|].
    split; [discriminate|]. intros [= ->]. congruence.
Qed.

End Session.

(** ** Runs on the desk *)

Module DeskRuns.
Import Desk.

Lemma novel_open_reachable more generator unreadable :
  reachable (novel_open more generator unreadable).
Proof.
  unfold novel_open, start. apply reach_step; [apply reach_boot|exact I].
Qed.

Lemma menu_enabled_iff_project_open_novel :
  reachable (novel_open [] (Ret []) [])
  /\ prjDir (app (novel_open [] (Ret []) [])) = Some "books/novel"
  /\ fileMenu_Close (app (novel_open [] (Ret []) [])) = normal
  /\ mainMenu_Convert (app (novel_open [] (Ret []) [])) = normal.
Proof.
  pose proof (novel_open_reachable [] (Ret []) []) as Hreach.
  pose proof (menu_enabled_iff_project_open _ Hreach) as (Hon & _).
  split; [exact Hreach|].
  assert (Hdir : prjDir (app (novel_open [] (Ret []) [])) = Some "books/novel")
    by (vm_compute; reflexivity).
  split; [exact Hdir|].
  apply Hon. rewrite Hdir. discriminate.
Defined.

(** C6, as stated, fails: with the novel open the user asks to open
    another project and dismisses the dialog.  [open_project] returns
    [False], yet 'Close' and 'Convert' stay enabled. *)
Lemma dismissed_open_keeps_menu_enabled :
  let s := novel_open [] (Ret []) [] in
  reachable s
  /\ fst (open_project "" s) = Ret false
  /\ fileMenu_Close (app (snd (open_project "" s))) = normal
  /\ mainMenu_Convert (app (snd (open_project "" s))) = normal.
Proof.
  split; [apply novel_open_reachable|]. vm_compute. repeat split.
Qed.

Lemma open_project_iff_companion_exists_novel :
  let s := start (shelf ["books/novel.txt"] (Ret []) []) in
  os_path_isfile "books/novel.txt" (world s) = false
  /\ fst (open_project "" s) = Ret true
  /\ prjDir (app (snd (open_project "" s))) = Some "books/novel".
Proof.
  intros s.
  assert (Hsel : select_project "" s
                 = (Ret "books/novel.txt", snd (select_project "" s)))
    by (vm_compute; reflexivity).
  assert (Hf : "books/novel.txt" <> "") by discriminate.
  assert (Hdir : os_path_isdir (companion "books/novel.txt")
                   (world (snd (select_project "" s))) = true)
    by (vm_compute; reflexivity).
  destruct (open_project_iff_companion_exists _ _ _ _ Hsel Hf)
    as (Hr & Ht & _ & _).
  split; [reflexivity|].
  split; [rewrite Hr, Hdir; reflexivity|].
  rewrite (Ht Hdir). vm_compute. reflexivity.
Defined.

Lemma generation_failure_forwards_nothing_novel :
  let s := novel_open [] (Raise (Exception "no outline ")) [] in
  let s' := snd (convert outline s) in
  fst (convert outline s) = Ret tt
  /\ statusBar (app s') = {| bg := "red"; fg := "white"; text := "no outline" |}
  /\ forwarded s' = []
  /\ converted s' = []
  /\ fileMenu_Close (app s') = normal
  /\ mainMenu_Convert (app s') = normal.
Proof.
  intros s s'. subst s'.
  assert (Hgen : generator_of outline (prjDir (app s)) (world s)
                 = (Raise (Exception "no outline "), world s))
    by reflexivity.
  destruct (generation_failure_forwards_nothing _ _ _ _ Hgen)
    as (Hr & _ & Hbar & Hfw & Hcv & Hcl & Hcn & _).
  split; [exact Hr|].
  split; [rewrite Hbar; vm_compute; reflexivity|].
  split; [rewrite Hfw; vm_compute; reflexivity|].
  split; [rewrite Hcv; vm_compute; reflexivity|].
  split; [rewrite Hcl|rewrite Hcn]; vm_compute; reflexivity.
Defined.

Lemma call_pandoc_source_format_converts_nothing_novel :
  let s := novel_open [] (Ret []) [] in
  outputType (app s) = 0
  /\ fst (call_pandoc ["books/novel/a.md"; "books/novel/b.md"] s) = Ret tt
  /\ converted (snd (call_pandoc ["books/novel/a.md"; "books/novel/b.md"] s))
     = [].
Proof.
  intros s.
  assert (Hidx : outputType (app s) = 0) by (vm_compute; reflexivity).
  destruct (call_pandoc_source_format_converts_nothing
              ["books/novel/a.md"; "books/novel/b.md"] s Hidx)
    as (Hr & Hcv & _).
  split; [exact Hidx|]. split; [exact Hr|].
  rewrite Hcv. vm_compute. reflexivity.
Defined.

Lemma open_project_dialog_dismissed_at_start :
  let s := start (shelf [] (Ret []) []) in
  dialog_shown "" s = true
  /\ fst (dialog_answer s) = ""
  /\ fst (select_project "" s) = Ret ""
  /\ fst (open_project "" s) = Ret false
  /\ infoHowText (app (snd (open_project "" s))) = ""
  /\ _statusText (app (snd (open_project "" s))) = "".
Proof.
  intros s.
  assert (Hshown : dialog_shown "" s = true) by reflexivity.
  assert (Hanswer : fst (dialog_answer s) = "") by reflexivity.
  destruct (open_project_dialog_dismissed "" s Hshown Hanswer)
    as (Hsel & Hopen & Hhow & Hst & _).
  split; [exact Hshown|]. split; [exact Hanswer|].
  split; [rewrite Hsel; reflexivity|].
  split; [rewrite Hopen; reflexivity|].
  split; [rewrite Hhow|rewrite Hst]; vm_compute; reflexivity.
Defined.

Lemma failed_open_closes_open_project_novel :
  let s := novel_open ["books/lost.msk"] (Ret []) [] in
  prjDir (app s) = Some "books/novel"
  /\ fst (open_project "" s) = Ret false
  /\ prjDir (app (snd (open_project "" s))) = None
  /\ text (pathBar (app (snd (open_project "" s)))) = ""
  /\ fileMenu_Close (app (snd (open_project "" s))) = disabled
  /\ mainMenu_Convert (app (snd (open_project "" s))) = disabled.
Proof.
  intros s.
  assert (Hopen : prjDir (app s) = Some "books/novel")
    by (vm_compute; reflexivity).
  assert (Hsel : select_project "" s
                 = (Ret "books/lost.msk", snd (select_project "" s)))
    by (vm_compute; reflexivity).
  assert (Hf : "books/lost.msk" <> "") by discriminate.
  assert (Hdir : os_path_isdir (companion "books/lost.msk")
                   (world (snd (select_project "" s))) = false)
    by (vm_compute; reflexivity).
  destruct (failed_open_closes_open_project _ _ _ _ _ Hopen Hsel Hf Hdir)
    as (Hr & Hp & _ & Hbar & Hcl & Hcn).
  repeat split; assumption.
Defined.

Lemma call_pandoc_output_paths_novel :
  let s := step (Select_output 2) (novel_open [] (Ret []) []) in
  let batch := ["books/novel/a.md"; "notes.v2.md"; "/b.md"] in
  0 < outputType (app s)
  /\ converted (snd (call_pandoc batch s))
     = [ {| cv_source := "books/novel/a.md"; cv_to := "docx";
            cv_outputfile := "books/novel/a.docx" |};
         {| cv_source := "notes.v2.md"; cv_to := "docx";
            cv_outputfile := "notes.v2.docx" |};
         {| cv_source := "/b.md"; cv_to := "docx";
            cv_outputfile := "/b.docx" |} ].
Proof.
  intros s batch.
  assert (Hidx : 0 < outputType (app s)) by (vm_compute; reflexivity).
  assert (Hext : nth_error OUTPUT_TYPES (Z.to_nat (outputType (app s)))
                 = Some "docx") by (vm_compute; reflexivity).
  destruct (call_pandoc_output_paths batch "docx" s Hidx Hext) as (Hcalls & _).
  split; [exact Hidx|]. rewrite Hcalls. vm_compute. reflexivity.
Defined.

(** C4 on a batch of three of which the second cannot be converted, with
    'docx' selected: all three are attempted, and the failure of the second
    is left on the status bar white on green, the colours of success. *)
Example conversion_failure_rendered_green :
  let s := step (Select_output 2) (novel_open [] (Ret []) ["books/novel/b.md"]) in
  let batch := ["books/novel/a.md"; "books/novel/b.md"; "books/novel/c.md"] in
  let s' := snd (call_pandoc batch s) in
  fst (pypandoc_convert_file (conversion_of "docx" "books/novel/b.md") (world s))
  = Raise (Exception "cannot read books/novel/b.md")
  /\ fst (call_pandoc batch s) = Ret tt
  /\ map cv_source (converted s') = batch
  /\ statusBar (app s')
     = {| bg := "green"; fg := "white"; text := "cannot read books/novel/b.md" |}
  /\ bg (statusBar (app s')) <> "red".
Proof. vm_compute. repeat split. discriminate. Qed.

End DeskRuns.

(** * Further properties *)

(** ** The application object on its own *)

Section Object.

(** X1: [close_project] resets the interface: no project, the window
    title back to the application title, status text and status bar empty
    in neutral colours, path text and path bar empty, both menu entries
    disabled.  Closing twice is closing once.  It does not touch the
    project name, the how-text, the keyword arguments or the output type. *)
Theorem close_project_resets (self : MainTk) :
  let closed := close_project self in
  prjDir closed = None
  /\ root_title closed = title self
  /\ _statusText closed = ""
  /\ statusBar closed
     = {| bg := root_background self; fg := "black"; text := "" |}
  /\ _pathText closed = Some ""
  /\ text (pathBar closed) = ""
  /\ fileMenu_Close closed = disabled
  /\ mainMenu_Convert closed = disabled
  /\ close_project closed = closed
  /\ prjName closed = prjName self
  /\ infoHowText closed = infoHowText self
  /\ kwargs closed = kwargs self
  /\ outputType closed = outputType self.
Proof. destruct self. lazy. repeat split. Qed.

(** The status bar after [set_info_how] depends on the message alone. *)
Lemma set_info_how_shown (message : string) (a b : MainTk) :
  statusBar (set_info_how message a) = statusBar (set_info_how message b)
  /\ infoHowText (set_info_how message a)
     = infoHowText (set_info_how message b).
Proof.
  destruct a, b. unfold set_info_how.
  destruct (PyStr.startswith "!" message); split; reflexivity.
Qed.

(** X2: [restore_status] takes a report off the status bar and nothing
    else: restoring after [set_info_how] gives what restoring without the
    report gives, with the reported how-text still stored.  Restoring twice
    is restoring once, and what [show_status] shows is what a restore brings
    back. *)
Theorem restore_status_dismisses_report (message shown : string) (self : MainTk) :
  restore_status (set_info_how message self)
  = set_infoHowText (infoHowText (set_info_how message self))
      (restore_status self)
  /\ restore_status (restore_status self) = restore_status self
  /\ restore_status (show_status shown self) = show_status shown self.
Proof.
  destruct self. unfold set_info_how.
  destruct (PyStr.startswith "!" message); lazy beta iota zeta delta -[PyStr.strip PyStr.split_max1 nth];
    repeat split.
Qed.

(** X3: the styling of a report is decided by the marker alone.  The
    status bar is white on red exactly for a message that begins with ['!']
    and white on green otherwise, and always shows the stored how-text,
    which is the message itself, or for a marked message what follows the
    marker, trimmed.  Nothing but the status bar and the how-text
    changes. *)
Theorem set_info_how_styles_by_marker (message : string) (self : MainTk) :
  let reported := set_info_how message self in
  statusBar reported
  = {| bg := if PyStr.startswith "!" message then "red" else "green";
       fg := "white";
       text := infoHowText reported |}
  /\ infoHowText reported
     = (if PyStr.startswith "!" message
        then PyStr.strip (PyStr.slice_from 1 message)
        else message)
  /\ set_statusBar (statusBar self) (set_infoHowText (infoHowText self) reported)
     = self.
Proof.
  destruct (PyStr.startswith "!" message) eqn:E.
  - destruct (split_max1_marker message E) as (rest & -> & _).
    rewrite slice_from_1, set_info_how_marked. destruct self. repeat split.
  - rewrite (set_info_how_unmarked _ _ E). destruct self. repeat split.
Qed.

(** X5: the file dialog is never started in an empty directory, and
    without a last-opened path among the keyword arguments it starts in
    the working directory. *)
Theorem initDir_never_empty (kw : gmap string string) :
  initDir kw <> ""
  /\ initDir (delete "yw_last_open" kw) = "./".
Proof.
  split.
  - unfold initDir.
    destruct (PyStr.truthy (os_path.dirname (default "" (kw !! "yw_last_open"))))
      eqn:E; [apply truthy_true, E|discriminate].
  - unfold initDir. rewrite lookup_delete_eq. reflexivity.
Qed.

End Object.

(** ** What a session keeps *)

Section Keeping.
Context {World : Type} `{Collaborators World}.

Ltac open_object a :=
  destruct a; unfold session_invariant, path_follows_project;
  cbn -[os_path.normpath companion base_name Z.of_nat List.length].

Lemma session_invariant_boot theme title kw :
  session_invariant (MainTk_init theme title kw).
Proof.
  unfold session_invariant, path_follows_project. cbn.
  repeat split; try lia. left. reflexivity.
Qed.

Lemma session_invariant_restore (a : MainTk) :
  session_invariant a -> session_invariant (restore_status a).
Proof.
  open_object a. intros (-> & _ & Hrange & Hpath).
  repeat split; try lia; try assumption. left. reflexivity.
Qed.

Lemma session_invariant_close (a : MainTk) :
  session_invariant a -> session_invariant (close_project a).
Proof.
  open_object a. intros (_ & _ & Hrange & _).
  repeat split; try lia. left. reflexivity.
Qed.

Lemma session_invariant_set_info_how (message : string) (a : MainTk) :
  session_invariant a -> session_invariant (set_info_how message a).
Proof.
  intros Hinv. unfold set_info_how.
  destruct (PyStr.startswith "!" message); revert Hinv; open_object a;
    intros (-> & _ & Hrange & Hpath);
    (repeat split; try lia; try assumption; right; reflexivity).
Qed.

Lemma session_invariant_output (i : nat) (a : MainTk) :
  (i < List.length OUTPUT_TYPES)%nat ->
  session_invariant a -> session_invariant (set_outputType (Z.of_nat i) a).
Proof.
  intros Hi. open_object a. intros (-> & Hbar & _ & Hpath).
  repeat split; try lia; assumption.
Qed.

Lemma session_invariant_kwargs (kw : gmap string string) (a : MainTk) :
  session_invariant a -> session_invariant (set_kwargs kw a).
Proof. open_object a. exact id. Qed.

Lemma session_invariant_cleared (a : MainTk) :
  session_invariant a ->
  session_invariant (set_prjName None (set_prjDir None (cleared a))).
Proof.
  unfold cleared.
  destruct a as [? ? ? ? ? ? [d|] ? ? ? ? ? ? ? ? ?];
    unfold session_invariant, path_follows_project;
    cbn -[os_path.normpath companion base_name Z.of_nat List.length];
    intros (-> & _ & Hrange & Hpath);
    (repeat split; try lia; try assumption; left; reflexivity).
Qed.

Lemma session_invariant_opened (f : string) (a : MainTk) :
  session_invariant a ->
  session_invariant
    (enable_menu
       (show_path (os_path.normpath (companion f))
          (set_prjDir (Some (companion f))
             (set_prjName (Some (base_name f)) (cleared a))))).
Proof.
  unfold cleared.
  destruct a as [? ? ? ? ? ? [d|] ? ? ? ? ? ? ? ? ?];
    unfold session_invariant, path_follows_project;
    cbn -[os_path.normpath companion base_name Z.of_nat List.length];
    intros (-> & _ & Hrange & Hpath);
    (repeat split; try lia; try (left; reflexivity);
     exists f; split; reflexivity).
Qed.

(** [open_project] ends in one of three ways. *)
Lemma open_project_outcomes (fileName : string) (s : Sys World) :
  exists f w,
    select_project fileName s = (Ret f, with_world w s)
    /\ ((f = ""
         /\ open_project fileName s
            = (Ret false, with_app (restore_status (app s)) (with_world w s)))
        \/ (f <> "" /\ os_path_isdir (companion f) w = false
            /\ open_project fileName s
               = (Ret false,
                  with_app (set_prjName None (set_prjDir None (cleared (app s))))
                           (with_world w s)))
        \/ (f <> "" /\ os_path_isdir (companion f) w = true
            /\ open_project fileName s
               = (Ret true,
                  with_app
                    (enable_menu
                       (show_path (os_path.normpath (companion f))
                          (set_prjDir (Some (companion f))
                             (set_prjName (Some (base_name f))
                                (cleared (app s))))))
                    (with_world w s)))).
Proof.
  destruct (select_project_frame fileName s) as (f & w & Hsel & _).
  exists f, w. split; [exact Hsel|].
  destruct (String.eqb_spec f "") as [->|Hf].
  { left. split; [reflexivity|]. apply open_project_dismissed, Hsel. }
  right.
  destruct (os_path_isdir (companion f) w) eqn:Hdir.
  - right. repeat split; try assumption.
    apply (open_project_found _ _ _ _ Hsel Hf Hdir).
  - left. repeat split; try assumption.
    apply (open_project_missing _ _ _ _ Hsel Hf Hdir).
Qed.

Lemma session_invariant_open (fileName : string) (s : Sys World) :
  session_invariant (app s) ->
  session_invariant (app (snd (open_project fileName s))).
Proof.
  intros Hinv.
  destruct (open_project_outcomes fileName s)
    as (f & w & _ & [(_ & E)|[(_ & _ & E)|(_ & _ & E)]]); rewrite E;
    cbn [snd app with_app].
  - apply session_invariant_restore, Hinv.
  - apply session_invariant_cleared, Hinv.
  - apply session_invariant_opened, Hinv.
Qed.

(** What [set_info_how] keeps, the loop of [call_pandoc] keeps. *)
Lemma for_each_keeps (P : MainTk -> Prop) (extension : string) :
  (forall message a, P a -> P (set_info_how message a)) ->
  forall (fileList : list string) (s : Sys World),
    P (app s) ->
    P (app (snd (for_each fileList (fun mdFile =>
         try_except (convert_file (conversion_of extension mdFile))
                    (fun ex => update (set_info_how (str_of ex)))) s))).
Proof.
  intros Hkeep. induction fileList as [|mdFile rest IH]; intros s HP;
    [exact HP|].
  cbn [for_each]. unfold bind. rewrite attempt_run.
  destruct (pypandoc_convert_file _ _) as [[[]|ex] w]; cbn beta iota zeta;
    apply IH; cbn [app with_app]; [exact HP|apply Hkeep, HP].
Qed.

Lemma call_pandoc_keeps (P : MainTk -> Prop) :
  (forall message a, P a -> P (set_info_how message a)) ->
  forall (fileList : list string) (s : Sys World),
    P (app s) -> P (app (snd (call_pandoc fileList s))).
Proof.
  intros Hkeep fileList s HP.
  destruct (Z.le_gt_cases (outputType (app s)) 0) as [Hle|Hgt].
  { rewrite call_pandoc_source_format by exact Hle. exact HP. }
  destruct (nth_error OUTPUT_TYPES (Z.to_nat (outputType (app s)))) eqn:E.
  - rewrite (call_pandoc_other_format _ _ _ Hgt E).
    apply for_each_keeps; [exact Hkeep|exact HP].
  - destruct (call_pandoc_no_such_format fileList s) as (message & Eraise).
    + apply nth_error_None in E. lia.
    + rewrite Eraise. exact HP.
Qed.

Lemma convert_keeps (P : MainTk -> Prop) :
  (forall message a, P a -> P (set_info_how message a)) ->
  forall (c : category) (s : Sys World),
    P (app s) -> P (app (snd (convert c s))).
Proof.
  intros Hkeep c s HP. rewrite convert_run.
  destruct (generator_of c (prjDir (app s)) (world s)) as [[fileList|ex] w].
  - apply call_pandoc_keeps; [exact Hkeep|]. apply Hkeep, HP.
  - apply Hkeep, HP.
Qed.

Lemma session_invariant_step (e : event World) (s : Sys World) :
  offered e s ->
  session_invariant (app s) -> session_invariant (app (step e s)).
Proof.
  intros Hoffered Hinv. unfold step.
  destruct e; cbn [handler]; unfold _open_project;
    rewrite ?app_update, ?app_open_project_handler, ?app_on_quit.
  - apply session_invariant_restore, Hinv.
  - apply session_invariant_open, Hinv.
  - apply session_invariant_kwargs, Hinv.
  - apply session_invariant_restore, Hinv.
  - apply session_invariant_open, Hinv.
  - apply session_invariant_close, Hinv.
  - apply session_invariant_kwargs, Hinv.
  - apply (convert_keeps _ session_invariant_set_info_how outline), Hinv.
  - apply (convert_keeps _ session_invariant_set_info_how story_world), Hinv.
  - apply (convert_keeps _ session_invariant_set_info_how characters), Hinv.
  - apply session_invariant_output; [exact Hoffered|exact Hinv].
  - exact Hinv.
Qed.

Lemma reachable_session_invariant (s : Sys World) :
  reachable s -> session_invariant (app s).
Proof.
  induction 1 as [theme title kw w|e s _ IH Hoffered].
  - apply session_invariant_boot.
  - apply session_invariant_step; assumption.
Qed.

End Keeping.

(** ** Opening, and the session as a whole *)

Section Beyond.
Context {World : Type} `{Collaborators World}.

(** X4: a file name that names an existing file is taken as it is:
    [select_project] returns it without showing the dialog and without
    touching anything, and [open_project] then decides on the companion
    directory in the world as it found it. *)
Theorem select_project_takes_existing_file (fileName : string) (s : Sys World) :
  fileName <> "" ->
  os_path_isfile fileName (world s) = true ->
  select_project fileName s = (Ret fileName, s)
  /\ dialog_shown fileName s = false
  /\ world (snd (open_project fileName s)) = world s
  /\ fst (open_project fileName s)
     = Ret (os_path_isdir (companion fileName) (world s)).
Proof.
  intros Hname Hfile.
  assert (Hshown : dialog_shown fileName s = false).
  { unfold dialog_shown. rewrite Hfile, (proj2 (truthy_true _) Hname).
    reflexivity. }
  assert (Hsel : select_project fileName s = (Ret fileName, s))
    by (rewrite select_project_run, Hshown; reflexivity).
  split; [exact Hsel|]. split; [exact Hshown|].
  destruct (os_path_isdir (companion fileName) (world s)) eqn:Hdir.
  - rewrite (open_project_found _ _ _ _ Hsel Hname Hdir). split; reflexivity.
  - rewrite (open_project_missing _ _ _ _ Hsel Hname Hdir). split; reflexivity.
Qed.

(** X6: a successful open shows the project.  The project is named after
    the selected file without its extension, the path bar and the stored
    path text show the normalised companion directory, the status bar is
    neutral and shows the stored status text, which is emptied when another
    project had to be closed first; the how-text and the logs are kept. *)
Theorem open_project_shows_project
    (fileName f : string) (s s1 : Sys World) :
  select_project fileName s = (Ret f, s1) ->
  f <> "" ->
  os_path_isdir (companion f) (world s1) = true ->
  let after := app (snd (open_project fileName s)) in
  let status := match prjDir (app s) with
                | Some _ => ""
                | None => _statusText (app s)
                end in
  prjName after = Some (base_name f)
  /\ _pathText after = Some (os_path.normpath (companion f))
  /\ text (pathBar after) = os_path.normpath (companion f)
  /\ _statusText after = status
  /\ statusBar after
     = {| bg := root_background (app s); fg := "black"; text := status |}
  /\ infoHowText after = infoHowText (app s)
  /\ converted (snd (open_project fileName s)) = converted s1
  /\ forwarded (snd (open_project fileName s)) = forwarded s1.
Proof.
  intros Hsel Hf Hdir after status. subst after status.
  rewrite (open_project_found _ _ _ _ Hsel Hf Hdir).
  cbn [snd app with_app converted forwarded]. unfold cleared.
  destruct (app s) as [? ? ? ? ? ? [d|] ? ? ? ? ? ? ? ? ?];
    lazy beta iota zeta delta -[os_path.normpath companion base_name
                                os_path.splitext os_path.split];
    repeat split.
Qed.

(** X7: in every reachable state the path bar follows the project: with
    a project open it shows the normalised project directory, which is the
    companion of a selected path and carries its base name as project name;
    with no project open it is empty. *)
Theorem path_bar_follows_project (s : Sys World) :
  reachable s -> path_follows_project (app s).
Proof. intros Hreach. apply (reachable_session_invariant s Hreach). Qed.

(** X8: in a session nothing is ever stored as status text, so the
    status bar is empty or shows the last how-text, and the Escape key or a
    click on the status bar always leaves it empty, in neutral colours. *)
Theorem escape_empties_status_bar (s : Sys World) :
  reachable s ->
  _statusText (app s) = ""
  /\ (text (statusBar (app s)) = ""
      \/ text (statusBar (app s)) = infoHowText (app s))
  /\ statusBar (app (step Key_Escape s))
     = {| bg := root_background (app s); fg := "black"; text := "" |}
  /\ statusBar (app (step Click_statusBar s))
     = {| bg := root_background (app s); fg := "black"; text := "" |}.
Proof.
  intros Hreach.
  destruct (reachable_session_invariant s Hreach) as (Hstatus & Hbar & _ & _).
  split; [exact Hstatus|]. split; [exact Hbar|].
  unfold step. cbn [handler]. rewrite app_update.
  unfold restore_status. rewrite show_status_fields.
  cbn [statusBar set_statusBar]. rewrite Hstatus. split; reflexivity.
Qed.

Lemma call_pandoc_returns (fileList : list string) (s : Sys World) :
  0 <= outputType (app s) < Z.of_nat (List.length OUTPUT_TYPES) ->
  fst (call_pandoc fileList s) = Ret tt.
Proof.
  intros Hrange.
  destruct (Z.le_gt_cases (outputType (app s)) 0) as [Hle|Hgt].
  { rewrite call_pandoc_source_format by exact Hle. reflexivity. }
  destruct (nth_error OUTPUT_TYPES (Z.to_nat (outputType (app s)))) eqn:E.
  - apply (call_pandoc_attempts_every_file _ _ _ Hgt E).
  - apply nth_error_None in E. lia.
Qed.

Lemma open_project_returns (fileName : string) (s : Sys World) :
  exists opened, fst (open_project fileName s) = Ret opened.
Proof.
  destruct (open_project_outcomes fileName s)
    as (f & w & _ & [(_ & E)|[(_ & _ & E)|(_ & _ & E)]]); rewrite E;
    eexists; reflexivity.
Qed.

(** X9: in a session no handler lets an exception escape.  The selected
    output type is always the index of a radio button, so the subscript in
    [call_pandoc] is in range, and every handler of every event returns. *)
Theorem handlers_return (e : event World) (s : Sys World) :
  reachable s ->
  fst (handler e s) = Ret tt
  /\ 0 <= outputType (app s) < Z.of_nat (List.length OUTPUT_TYPES).
Proof.
  intros Hreach.
  destruct (reachable_session_invariant s Hreach) as (_ & _ & Hrange & _).
  split; [|exact Hrange].
  assert (Hopen : fst (bind (open_project "") (fun _ => ret tt) s) = Ret tt).
  { unfold bind, ret. destruct (open_project_returns "" s) as (opened & E).
    destruct (open_project "" s) as [r s']. cbn [fst] in E. subst r.
    reflexivity. }
  assert (Hconvert : forall c, fst (convert c s) = Ret tt).
  { intros c. rewrite convert_run.
    destruct (generator_of c (prjDir (app s)) (world s)) as [[fileList|ex] w];
      [|reflexivity].
    apply call_pandoc_returns. cbn [app with_app].
    rewrite (proj1 (proj2 (proj2 (proj2 (only_reported_keeps _ _
               (only_reported_set_info_how _ (app s))))))).
    exact Hrange. }
  destruct e; cbn [handler]; try reflexivity; try exact Hopen.
  - apply (Hconvert outline).
  - apply (Hconvert story_world).
  - apply (Hconvert characters).
Qed.

End Beyond.

(** ** Batches *)

Section Batches.
Context {World : Type} `{Collaborators World}.

Lemma for_each_app {A} (xs ys : list A) (body : A -> M World unit)
    (s : Sys World) :
  for_each (xs ++ ys) body s
  = bind (for_each xs body) (fun _ => for_each ys body) s.
Proof.
  revert s. induction xs as [|x rest IH]; intros s; [reflexivity|].
  change ((x :: rest) ++ ys)%list with (x :: (rest ++ ys))%list.
  cbn [for_each]. unfold bind.
  destruct (body x s) as [[[]|ex] s']; [|reflexivity].
  rewrite IH. reflexivity.
Qed.

Lemma for_each_steady (steady : World -> Prop) (extension : string) :
  kept_by_converter steady ->
  forall (fileList : list string) (s : Sys World),
    steady (world s) ->
    steady (world (snd (for_each fileList (fun mdFile =>
      try_except (convert_file (conversion_of extension mdFile))
                 (fun ex => update (set_info_how (str_of ex)))) s))).
Proof.
  intros Hkept. induction fileList as [|mdFile rest IH]; intros s Hs;
    [exact Hs|].
  cbn [for_each]. unfold bind. rewrite attempt_run.
  pose proof (Hkept (conversion_of extension mdFile) _ Hs) as Hw.
  destruct (pypandoc_convert_file _ _) as [[[]|ex] w]; cbn [snd] in Hw;
    cbn beta iota zeta; apply IH; exact Hw.
Qed.

Lemma for_each_silent (steady : World -> Prop) (extension : string) :
  kept_by_converter steady ->
  forall (fileList : list string) (s : Sys World),
    (forall mdFile w, In mdFile fileList -> steady w ->
       fst (pypandoc_convert_file (conversion_of extension mdFile) w) = Ret tt) ->
    steady (world s) ->
    app (snd (for_each fileList (fun mdFile =>
      try_except (convert_file (conversion_of extension mdFile))
                 (fun ex => update (set_info_how (str_of ex)))) s))
    = app s.
Proof.
  intros Hkept. induction fileList as [|mdFile rest IH]; intros s Hok Hs;
    [reflexivity|].
  cbn [for_each]. unfold bind. rewrite attempt_run.
  pose proof (Hkept (conversion_of extension mdFile) _ Hs) as Hw.
  pose proof (Hok mdFile _ (or_introl eq_refl) Hs) as Hr.
  destruct (pypandoc_convert_file _ _) as [r w]. cbn [fst snd] in Hw, Hr.
  subst r. cbn beta iota zeta.
  rewrite IH; [reflexivity| |exact Hw].
  intros md w' Hin. apply Hok. right. exact Hin.
Qed.

(** X11: a batch in which every conversion succeeds is silent.  In
    worlds the converter does not lead out of and in which it converts every
    file of the batch, [call_pandoc] returns with the application object as
    it found it: there is no report of success, per file or for the batch;
    and it has called the converter once for each file. *)
Theorem call_pandoc_silent_on_success
    (steady : World -> Prop) (fileList : list string) (extension : string)
    (s : Sys World) :
  0 < outputType (app s) ->
  nth_error OUTPUT_TYPES (Z.to_nat (outputType (app s))) = Some extension ->
  kept_by_converter steady ->
  steady (world s) ->
  (forall mdFile w, In mdFile fileList -> steady w ->
     fst (pypandoc_convert_file (conversion_of extension mdFile) w) = Ret tt) ->
  fst (call_pandoc fileList s) = Ret tt
  /\ app (snd (call_pandoc fileList s)) = app s
  /\ List.length (converted (snd (call_pandoc fileList s)))
     = (List.length (converted s) + List.length fileList)%nat.
Proof.
  intros Hidx Hext Hkept Hs Hok.
  destruct (call_pandoc_attempts_every_file fileList _ _ Hidx Hext)
    as (Hr & Hc).
  split; [exact Hr|]. split.
  - rewrite (call_pandoc_other_format _ _ _ Hidx Hext).
    rewrite (for_each_silent steady extension Hkept fileList _ Hok);
      [reflexivity|exact Hs].
  - rewrite Hc, length_app, length_map. reflexivity.
Qed.

(** X12: after a batch the status bar shows the last failure, and only
    that.  When the conversion of one file fails and those of all files
    after it succeed, the status bar and the how-text are what
    [set_info_how] makes of that failure's text, whatever happened to the
    files before it. *)
Theorem call_pandoc_shows_last_failure
    (steady : World -> Prop) (before after : list string)
    (mdFile extension : string) (ex : exn) (s : Sys World) :
  0 < outputType (app s) ->
  nth_error OUTPUT_TYPES (Z.to_nat (outputType (app s))) = Some extension ->
  kept_by_converter steady ->
  steady (world s) ->
  (forall w, steady w ->
     fst (pypandoc_convert_file (conversion_of extension mdFile) w) = Raise ex) ->
  (forall md w, In md after -> steady w ->
     fst (pypandoc_convert_file (conversion_of extension md) w) = Ret tt) ->
  let shown := app (snd (call_pandoc (before ++ mdFile :: after) s)) in
  statusBar shown = statusBar (set_info_how (str_of ex) (app s))
  /\ infoHowText shown = infoHowText (set_info_how (str_of ex) (app s)).
Proof.
  intros Hidx Hext Hkept Hs Hfail Hok shown. subst shown.
  assert (Hshown : exists a,
             app (snd (call_pandoc (before ++ mdFile :: after) s))
             = set_info_how (str_of ex) a);
    [|destruct Hshown as (a & ->); apply set_info_how_shown].
  rewrite (call_pandoc_other_format _ _ _ Hidx Hext), for_each_app.
  set (s0 := snd (enter_call_pandoc (before ++ mdFile :: after) s)).
  assert (Hs0 : steady (world s0)) by exact Hs.
  pose proof (for_each_steady steady extension Hkept before s0 Hs0) as Hs1.
  destruct (for_each_attempts extension before s0) as (Hr & _ & _ & _).
  unfold bind at 1.
  destruct (for_each before _ s0) as [r s1]. cbn [fst snd] in Hr, Hs1.
  subst r. cbn [for_each]. unfold bind. rewrite attempt_run.
  pose proof (Hfail _ Hs1) as Hraise.
  pose proof (Hkept (conversion_of extension mdFile) _ Hs1) as Hs2.
  destruct (pypandoc_convert_file _ (world s1)) as [r w].
  cbn [fst snd] in Hraise, Hs2. subst r. cbn beta iota zeta.
  rewrite (for_each_silent steady extension Hkept after _ Hok) by exact Hs2.
  exists (app s1). reflexivity.
Qed.

(** X13: with the source format selected, a successful generation ends
    with the success message of its category on the status bar, white on
    green; the generated files are handed to [call_pandoc] once and the
    converter is not called. *)
Theorem generation_success_in_source_format
    (c : category) (fileList : list string) (w : World) (s : Sys World) :
  generator_of c (prjDir (app s)) (world s) = (Ret fileList, w) ->
  outputType (app s) = 0 ->
  let s' := snd (convert c s) in
  let written := match c with
                 | outline => "Outline documents written."
                 | story_world => "Story world document written."
                 | characters => "Character sheets document written."
                 end in
  fst (convert c s) = Ret tt
  /\ statusBar (app s') = {| bg := "green"; fg := "white"; text := written |}
  /\ infoHowText (app s') = written
  /\ converted s' = converted s
  /\ forwarded s' = (forwarded s ++ [fileList])%list
  /\ world s' = w.
Proof.
  intros Hgen Hidx s' written. subst s' written.
  rewrite convert_run, Hgen.
  rewrite call_pandoc_source_format.
  - destruct c; repeat split.
  - cbn [app with_app].
    rewrite (proj1 (proj2 (proj2 (proj2 (only_reported_keeps _ _
               (only_reported_set_info_how _ (app s))))))).
    lia.
Qed.

(** X14: the handlers of the Convert menu touch the report and nothing
    else.  However the generation and the conversions end, the open
    project, the menu entries, the selected output type, the stored status
    text and the path bar are what they were, and [call_pandoc] is entered
    at most once. *)
Theorem convert_touches_report_only (c : category) (s : Sys World) :
  let s' := snd (convert c s) in
  only_reported (app s) (app s')
  /\ prjDir (app s') = prjDir (app s)
  /\ fileMenu_Close (app s') = fileMenu_Close (app s)
  /\ mainMenu_Convert (app s') = mainMenu_Convert (app s)
  /\ outputType (app s') = outputType (app s)
  /\ _statusText (app s') = _statusText (app s)
  /\ pathBar (app s') = pathBar (app s)
  /\ (forwarded s' = forwarded s
      \/ exists fileList, forwarded s' = (forwarded s ++ [fileList])%list).
Proof.
  intros s'. subst s'.
  pose proof (convert_frame c s) as Hframe.
  destruct (only_reported_keeps _ _ Hframe) as (Hp & Hc & Hv & Ho & Hs & Hb).
  repeat (split; [assumption|]).
  rewrite convert_run.
  destruct (generator_of c (prjDir (app s)) (world s)) as [[fileList|ex] w].
  - right. exists fileList. rewrite (proj2 (call_pandoc_frame _ _)).
    reflexivity.
  - left. reflexivity.
Qed.

End Batches.

(** ** Output files *)

Section Outputs.
Import PyStr.

Lemma endswith_app (c : ascii) (a b : string) :
  b <> "" -> endswith c (a +:+ b) = endswith c b.
Proof.
  intros Hb. induction a as [|x t IH]; [reflexivity|].
  rewrite app_cons. destruct (t +:+ b) as [|y u] eqn:E.
  - destruct t; [|discriminate]. contradiction.
  - exact IH.
Qed.

Lemma endswith_join (c : ascii) (a b : string) :
  b <> "" -> endswith c (os_path.join a b) = endswith c b.
Proof.
  intros Hb. unfold os_path.join.
  destruct (startswith _ b); [reflexivity|].
  destruct (negb (truthy a) || endswith os_path.sep a).
  - apply endswith_app, Hb.
  - rewrite endswith_app; [apply endswith_app, Hb|].
    destruct b; [contradiction|discriminate].
Qed.

(** X15: a conversion never writes over the file it reads.  For each of
    the formats other than the source format, the output file named for a
    Markdown file ends like the format's name, so for a path that ends in
    ['d'], as every ['.md'] path does, it is another path. *)
Theorem outputfile_differs_from_source (extension mdFile : string) :
  In extension (tl OUTPUT_TYPES) ->
  endswith "d" mdFile = true ->
  endswith "d" (outputfile extension mdFile) = false
  /\ outputfile extension mdFile <> mdFile
  /\ cv_outputfile (conversion_of extension mdFile)
     <> cv_source (conversion_of extension mdFile).
Proof.
  intros Hext Hmd.
  assert (Hend : endswith "d" (outputfile extension mdFile) = false).
  { unfold outputfile.
    destruct (os_path.split mdFile) as [dir file].
    destruct (os_path.splitext file) as [name ext].
    assert (Hne : "." +:+ extension <> "") by discriminate.
    rewrite endswith_join, endswith_app by
      (try exact Hne; destruct name; discriminate).
    cbn [tl OUTPUT_TYPES In] in Hext.
    destruct Hext as [<-|[<-|[<-|[]]]]; reflexivity. }
  split; [exact Hend|].
  assert (Hdiff : outputfile extension mdFile <> mdFile)
    by (intros E; rewrite E, Hmd in Hend; discriminate).
  split; exact Hdiff.
Qed.

End Outputs.

(** ** Failing to open, with no project open *)

Section Quiet.
Context {World : Type} `{Collaborators World}.




End Quiet.

(** ** More runs on the desk *)

Module DeskMore.
Import Desk.

Lemma pandoc_leaves_desk (c : conversion) (w : desk) :
  snd (pypandoc_convert_file c w) = w.
Proof.
  cbn [pypandoc_convert_file collaborators]. unfold pandoc.
  destruct (mem (cv_source c) (unreadable w)); reflexivity.
Qed.

Lemma desk_kept (steady : desk -> Prop) : kept_by_converter steady.
Proof. intros c w Hw. rewrite pandoc_leaves_desk. exact Hw. Qed.

Lemma select_project_takes_existing_file_novel :
  let s := start (shelf [] (Ret []) []) in
  "books/novel.msk" <> ""
  /\ os_path_isfile "books/novel.msk" (world s) = true
  /\ select_project "books/novel.msk" s = (Ret "books/novel.msk", s)
  /\ fst (open_project "books/novel.msk" s) = Ret true.
Proof.
  intros s.
  assert (Hname : "books/novel.msk" <> "") by discriminate.
  assert (Hfile : os_path_isfile "books/novel.msk" (world s) = true)
    by reflexivity.
  destruct (select_project_takes_existing_file _ s Hname Hfile)
    as (Hsel & _ & _ & Hopen).
  split; [exact Hname|]. split; [exact Hfile|]. split; [exact Hsel|].
  rewrite Hopen. vm_compute. reflexivity.
Defined.

Lemma open_project_shows_project_novel :
  let s := start {| dirs := ["books/./novel"]; files := [];
                    answers := ["books/./novel.msk"]; generator := Ret [];
                    unreadable := [] |} in
  let after := app (snd (open_project "" s)) in
  prjDir after = Some "books/./novel"
  /\ prjName after = Some "novel"
  /\ text (pathBar after) = "books/novel".
Proof.
  intros s after. subst after.
  assert (Hsel : select_project "" s
                 = (Ret "books/./novel.msk", snd (select_project "" s)))
    by (vm_compute; reflexivity).
  assert (Hf : "books/./novel.msk" <> "") by discriminate.
  assert (Hdir : os_path_isdir (companion "books/./novel.msk")
                   (world (snd (select_project "" s))) = true)
    by (vm_compute; reflexivity).
  destruct (open_project_shows_project _ _ _ _ Hsel Hf Hdir)
    as (Hname & _ & Hbar & _).
  split; [vm_compute; reflexivity|].
  split; [rewrite Hname|rewrite Hbar]; vm_compute; reflexivity.
Defined.

Lemma path_bar_follows_project_novel :
  reachable (novel_open [] (Ret []) [])
  /\ path_follows_project (app (novel_open [] (Ret []) [])).
Proof.
  pose proof (DeskRuns.novel_open_reachable [] (Ret []) []) as Hreach.
  split; [exact Hreach|]. exact (path_bar_follows_project _ Hreach).
Defined.

Lemma failed_outline_reachable :
  reachable (step Convert_Outline
               (novel_open [] (Raise (Exception "boom")) [])).
Proof.
  apply reach_step; [apply DeskRuns.novel_open_reachable|].
  vm_compute. reflexivity.
Qed.

Lemma escape_empties_status_bar_novel :
  let s := step Convert_Outline (novel_open [] (Raise (Exception "boom")) []) in
  reachable s
  /\ text (statusBar (app s)) = "boom"
  /\ statusBar (app (step Key_Escape s))
     = {| bg := "#d9d9d9"; fg := "black"; text := "" |}.
Proof.
  intros s. subst s.
  pose proof failed_outline_reachable as Hreach.
  destruct (escape_empties_status_bar _ Hreach) as (_ & _ & Hescape & _).
  split; [exact Hreach|]. split; [vm_compute; reflexivity|].
  rewrite Hescape. vm_compute. reflexivity.
Defined.

Lemma handlers_return_novel :
  let s := novel_open [] (Ret ["books/novel/a.md"]) ["books/novel/a.md"] in
  reachable s
  /\ fst (handler Convert_Outline s) = Ret tt
  /\ fst (handler File_Open s) = Ret tt.
Proof.
  intros s.
  pose proof (DeskRuns.novel_open_reachable [] (Ret ["books/novel/a.md"])
                ["books/novel/a.md"]) as Hreach.
  split; [exact Hreach|].
  split; [apply (handlers_return Convert_Outline _ Hreach)
         |apply (handlers_return File_Open _ Hreach)].
Defined.

Lemma call_pandoc_silent_on_success_novel :
  let s := step (Select_output 1) (novel_open [] (Ret []) []) in
  let batch := ["books/novel/a.md"; "books/novel/b.md"] in
  0 < outputType (app s)
  /\ app (snd (call_pandoc batch s)) = app s
  /\ List.length (converted (snd (call_pandoc batch s))) = 2%nat.
Proof.
  intros s batch.
  assert (Hidx : 0 < outputType (app s)) by (vm_compute; reflexivity).
  assert (Hext : nth_error OUTPUT_TYPES (Z.to_nat (outputType (app s)))
                 = Some "odt") by (vm_compute; reflexivity).
  assert (Hs : unreadable (world s) = []) by (vm_compute; reflexivity).
  assert (Hok : forall mdFile w, In mdFile batch -> unreadable w = [] ->
            fst (pypandoc_convert_file (conversion_of "odt" mdFile) w) = Ret tt).
  { intros mdFile w _ Hw. cbn [pypandoc_convert_file collaborators].
    unfold pandoc. rewrite Hw. reflexivity. }
  destruct (call_pandoc_silent_on_success (fun w => unreadable w = [])
              batch "odt" s Hidx Hext (desk_kept _) Hs Hok)
    as (_ & Happ & Hlen).
  split; [exact Hidx|]. split; [exact Happ|].
  rewrite Hlen. vm_compute. reflexivity.
Defined.

Lemma call_pandoc_shows_last_failure_novel :
  let s := step (Select_output 2)
             (novel_open [] (Ret []) ["books/novel/a.md"; "books/novel/b.md"]) in
  let shown := app (snd (call_pandoc
                 ["books/novel/a.md"; "books/novel/b.md"; "books/novel/c.md"] s)) in
  0 < outputType (app s)
  /\ statusBar shown
     = {| bg := "green"; fg := "white";
          text := "cannot read books/novel/b.md" |}.
Proof.
  intros s shown. subst shown.
  assert (Hidx : 0 < outputType (app s)) by (vm_compute; reflexivity).
  assert (Hext : nth_error OUTPUT_TYPES (Z.to_nat (outputType (app s)))
                 = Some "docx") by (vm_compute; reflexivity).
  assert (Hs : unreadable (world s) = ["books/novel/a.md"; "books/novel/b.md"])
    by (vm_compute; reflexivity).
  assert (Hfail : forall w,
            unreadable w = ["books/novel/a.md"; "books/novel/b.md"] ->
            fst (pypandoc_convert_file
                   (conversion_of "docx" "books/novel/b.md") w)
            = Raise (Exception "cannot read books/novel/b.md")).
  { intros w Hw. cbn [pypandoc_convert_file collaborators].
    unfold pandoc. rewrite Hw. reflexivity. }
  assert (Hok : forall md w, In md ["books/novel/c.md"] ->
            unreadable w = ["books/novel/a.md"; "books/novel/b.md"] ->
            fst (pypandoc_convert_file (conversion_of "docx" md) w) = Ret tt).
  { intros md w [<-|[]] Hw. cbn [pypandoc_convert_file collaborators].
    unfold pandoc. rewrite Hw. reflexivity. }
  destruct (call_pandoc_shows_last_failure
              (fun w => unreadable w = ["books/novel/a.md"; "books/novel/b.md"])
              ["books/novel/a.md"] ["books/novel/c.md"] "books/novel/b.md"
              "docx" _ s Hidx Hext (desk_kept _) Hs Hfail Hok)
    as (Hbar & _).
  cbn [List.app] in Hbar.
  split; [exact Hidx|]. rewrite Hbar. vm_compute. reflexivity.
Defined.

Lemma generation_success_in_source_format_novel :
  let s := novel_open [] (Ret ["a.md"; "b.md"; "c.md"]) [] in
  let s' := snd (convert outline s) in
  outputType (app s) = 0
  /\ statusBar (app s')
     = {| bg := "green"; fg := "white"; text := "Outline documents written." |}
  /\ converted s' = []
  /\ forwarded s' = [["a.md"; "b.md"; "c.md"]].
Proof.
  intros s s'. subst s'.
  assert (Hgen : generator_of outline (prjDir (app s)) (world s)
                 = (Ret ["a.md"; "b.md"; "c.md"], world s)) by reflexivity.
  assert (Hidx : outputType (app s) = 0) by (vm_compute; reflexivity).
  destruct (generation_success_in_source_format _ _ _ _ Hgen Hidx)
    as (_ & Hbar & _ & Hc & Hf & _).
  split; [exact Hidx|]. split; [exact Hbar|].
  split; [rewrite Hc|rewrite Hf]; vm_compute; reflexivity.
Defined.

Lemma outputfile_differs_from_source_novel :
  In "docx" (tl OUTPUT_TYPES)
  /\ PyStr.endswith "d" "books/novel/a.md" = true
  /\ outputfile "docx" "books/novel/a.md" <> "books/novel/a.md".
Proof.
  assert (Hext : In "docx" (tl OUTPUT_TYPES)) by (right; left; reflexivity).
  assert (Hmd : PyStr.endswith "d" "books/novel/a.md" = true) by reflexivity.
  destruct (outputfile_differs_from_source _ _ Hext Hmd) as (_ & Hdiff & _).
  split; [exact Hext|]. split; [exact Hmd|exact Hdiff].
Defined.



End DeskMore.
